(** * go-junos: a shallow embedding of [junos.go]

    The package talks NETCONF to a Junos device: every exported function
    builds an RPC payload from a template, executes it over the session
    and inspects the reply.  The embedding keeps that shape:

    - Go strings are byte strings ([string], one [ascii] per byte);
    - Go [int] is [Z], [len] results are [nat] converted with [Z.of_nat];
    - a Go slice whose nil-ness is tested is an [option (list _)];
    - an [error] is its message, [nil] is [None];
    - the transport, the file system and the log are fields of a [World]
      that every call threads; a call can return, exit the process
      ([log.Fatal]) or panic (index out of range). *)

From Stdlib Require Import String Ascii List ZArith Lia Bool DecimalString.
Import ListNotations.

Open Scope list_scope.
Open Scope string_scope.

(* ================================================================== *)
(** * The Go standard library, as far as [junos.go] uses it *)
(* ================================================================== *)

Module strings.

(** [strings.Contains(s, substr)]. *)
Fixpoint Contains (s substr : string) : bool :=
  prefix substr s ||
  match s with
  | EmptyString => false
  | String _ s' => Contains s' substr
  end.

(** [strings.Join(elems, sep)]: nothing for no element, the element for
    one, and otherwise the first element followed by [sep] and the next
    element, for every next element. *)
Definition Join (elems : list string) (sep : string) : string :=
  match elems with
  | [] => ""
  | e :: rest => fold_left (fun b s => (b ++ sep ++ s)%string) rest e
  end.

(** [strings.Split(s, sep)] for a non-empty [sep]: the fields between
    the non-overlapping occurrences of [sep], found from the left.
    [skip] counts the bytes of an occurrence still to be passed. *)
Fixpoint genSplit (s sep : string) (skip : nat) : list string :=
  match s with
  | EmptyString => [""]
  | String c s' =>
      match skip with
      | S k => genSplit s' sep k
      | O =>
          if prefix sep s
          then "" :: genSplit s' sep (String.length sep - 1)
          else match genSplit s' sep 0 with
               | h :: t => String c h :: t
               | [] => [String c ""]
               end
      end
  end.

Definition Split (s sep : string) : list string := genSplit s sep 0.

(** [strings.Replace(s, old, new, -1)] for a non-empty [old]. *)
Fixpoint replaceFrom (s old new : string) (skip : nat) : string :=
  match s with
  | EmptyString => ""
  | String c s' =>
      match skip with
      | S k => replaceFrom s' old new k
      | O =>
          if prefix old s
          then (new ++ replaceFrom s' old new (String.length old - 1))%string
          else String c (replaceFrom s' old new 0)
      end
  end.

Definition Replace (s old new : string) : string := replaceFrom s old new 0.

(** Membership of a byte in a cutset of ASCII characters. *)
Fixpoint inCutset (c : ascii) (cutset : string) : bool :=
  match cutset with
  | EmptyString => false
  | String d cutset' => Ascii.eqb c d || inCutset c cutset'
  end.

(** [strings.TrimLeft], [strings.TrimRight] and [strings.Trim] for an
    ASCII cutset. *)
Fixpoint TrimLeft (s cutset : string) : string :=
  match s with
  | EmptyString => ""
  | String c s' => if inCutset c cutset then TrimLeft s' cutset else s
  end.

Fixpoint TrimRight (s cutset : string) : string :=
  match s with
  | EmptyString => ""
  | String c s' =>
      match TrimRight s' cutset with
      | EmptyString => if inCutset c cutset then "" else String c ""
      | r => String c r
      end
  end.

Definition Trim (s cutset : string) : string :=
  TrimRight (TrimLeft s cutset) cutset.

(** [strings.ToUpper] on the ASCII letters.  The bytes of a non-ASCII
    rune, which Go maps through the Unicode tables, are left as they
    are. *)
Definition upperByte (c : ascii) : ascii :=
  let n := nat_of_ascii c in
  if (97 <=? n)%nat && (n <=? 122)%nat then ascii_of_nat (n - 32) else c.

Fixpoint ToUpper (s : string) : string :=
  match s with
  | EmptyString => ""
  | String c s' => String (upperByte c) (ToUpper s')
  end.

End strings.

(** A value of type [interface{}], for the dynamic types the package's
    callers pass: a string, a slice of strings, an int. *)
Inductive any : Type :=
| AString (s : string)
| AStrings (l : list string)
| AInt (z : Z).

Module fmt.

(** Decimal rendering of an [int]. *)
Definition itoa (z : Z) : string := NilZero.string_of_int (Z.to_int z).

Definition typeName (a : any) : string :=
  match a with
  | AString _ => "string"
  | AStrings _ => "[]string"
  | AInt _ => "int"
  end.

(** An operand under the verb [%s]. *)
Definition verb_s (a : any) : string :=
  match a with
  | AString s => s
  | AStrings l => "[" ++ strings.Join l " " ++ "]"
  | AInt z => "%!s(int=" ++ itoa z ++ ")"
  end.

(** An operand under the verb [%d]. *)
Definition verb_d (a : any) : string :=
  match a with
  | AInt z => itoa z
  | AString s => "%!d(string=" ++ s ++ ")"
  | AStrings l =>
      "[" ++ strings.Join (map (fun s => "%!d(string=" ++ s ++ ")") l) " " ++ "]"
  end.

(** An operand under [%v], as the report of surplus operands shows it. *)
Definition verb_v (a : any) : string :=
  match a with
  | AInt z => itoa z
  | _ => verb_s a
  end.

Definition extra (args : list any) : string :=
  match args with
  | [] => ""
  | _ => "%!(EXTRA "
         ++ strings.Join (map (fun a => typeName a ++ "=" ++ verb_v a) args) ", "
         ++ ")"
  end.

(** [fmt.Sprintf(format, args...)] for the verbs the package's
    templates contain, [%s] and [%d], and for [%%].  No template has
    another verb, a flag or a width; such a directive would be copied
    as it stands. *)
Fixpoint Sprintf (format : string) (args : list any) : string :=
  match format with
  | EmptyString => extra args
  | String "%" EmptyString => "%!(NOVERB)" ++ extra args
  | String "%" (String "%" rest) => String "%" (Sprintf rest args)
  | String "%" (String "s" rest) =>
      match args with
      | a :: args' => verb_s a ++ Sprintf rest args'
      | [] => "%!s(MISSING)" ++ Sprintf rest []
      end
  | String "%" (String "d" rest) =>
      match args with
      | a :: args' => verb_d a ++ Sprintf rest args'
      | [] => "%!d(MISSING)" ++ Sprintf rest []
      end
  | String c rest => String c (Sprintf rest args)
  end.

(** [fmt.Sprint] of one string operand. *)
Definition Sprint (s : string) : string := s.

End fmt.

Module regexp.

(** The fragment of Go's regular expressions that the package compiles:
    a program is a sequence of instructions, matched by backtracking,
    which finds the match Go's leftmost-first semantics prescribes
    (a greedy star prefers more repetitions). *)
Inductive class : Type :=
| AnyCharNotNL              (* [.] *)
| Byte (c : ascii).         (* a literal *)

Definition accepts (k : class) (c : ascii) : bool :=
  match k with
  | AnyCharNotNL => negb (Ascii.eqb c "010")
  | Byte d => Ascii.eqb c d
  end.

Inductive inst : Type :=
| BeginText                 (* [^] *)
| One (k : class)
| StarGreedy (k : class)    (* [k*] *)
| Save (slot : nat).        (* group [n] opens at slot [2n], closes at [2n+1] *)

Definition Regexp := list inst.

(** Slot bindings, latest first. *)
Definition caps := list (nat * nat).

Fixpoint slot (n : nat) (c : caps) : option nat :=
  match c with
  | [] => None
  | (m, p) :: c' => if Nat.eqb m n then Some p else slot n c'
  end.

Fixpoint star (k : class) (cont : nat -> string -> option caps)
         (pos : nat) (s : string) : option caps :=
  match s with
  | String c s' =>
      if accepts k c
      then match star k cont (S pos) s' with
           | Some r => Some r
           | None => cont pos s
           end
      else cont pos s
  | EmptyString => cont pos s
  end.

Fixpoint run (prog : Regexp) (pos : nat) (s : string) (c : caps) : option caps :=
  match prog with
  | [] => Some ((1, pos) :: c)
  | BeginText :: p => if Nat.eqb pos 0 then run p pos s c else None
  | One k :: p =>
      match s with
      | String a s' => if accepts k a then run p (S pos) s' c else None
      | EmptyString => None
      end
  | StarGreedy k :: p => star k (fun pos' s' => run p pos' s' c) pos s
  | Save n :: p => run p pos s ((n, pos) :: c)
  end.

(** The leftmost position a match starts at, with its slots. *)
Fixpoint search (prog : Regexp) (pos : nat) (s : string) : option caps :=
  match run prog pos s [(0, pos)] with
  | Some c => Some c
  | None =>
      match s with
      | String _ s' => search prog (S pos) s'
      | EmptyString => None
      end
  end.

Definition numGroups (prog : Regexp) : nat :=
  fold_right (fun i n => match i with Save k => Nat.max n (k / 2) | _ => n end)
             0 prog.

Definition group (s : string) (c : caps) (n : nat) : string :=
  match slot (2 * n) c, slot (2 * n + 1) c with
  | Some b, Some e => substring b (e - b) s
  | _, _ => ""
  end.

(** [re.FindStringSubmatch(s)]: the match and the groups, or a nil
    slice ([[]]) when [s] has no match. *)
Definition FindStringSubmatch (re : Regexp) (s : string) : list string :=
  match search re 0 s with
  | Some c => map (group s c) (seq 0 (S (numGroups re)))
  | None => []
  end.

End regexp.

(** An [error] is known by its message; [None] is the nil error. *)
Definition error : Type := option string.

Module errors.
Definition New (text : string) : error := Some text.
End errors.

(** A call of the Go library that yields [(value, err)] with one of the
    two set. *)
Inductive result (A : Type) : Type :=
| Ok (a : A)
| Err (msg : string).
Arguments Ok {A} a.
Arguments Err {A} msg.

Module netconf.

Record RPCError : Type := { Message : string }.

(** [Errors] is tested against nil: [None] is the nil slice. *)
Record RPCReply : Type := {
  Data : string;
  Errors : option (list RPCError)
}.

(** The session handle [DialSSH] returns. *)
Inductive Session : Type := SSH (target : string).

Definition RawRPC (s : string) : string := s.

End netconf.

(* ================================================================== *)
(** * Package junos: templates and types *)
(* ================================================================== *)

(** The double quote of the templates' attribute values. *)
Definition dq : string := String (ascii_of_nat 34) EmptyString.

Definition rpcCommand : string :=
  Eval cbv in "<command format=" ++ dq ++ "text" ++ dq ++ ">%s</command>".
Definition rpcCommandXML : string :=
  Eval cbv in "<command format=" ++ dq ++ "xml" ++ dq ++ ">%s</command>".
Definition rpcCommit : string := "<commit-configuration/>".
Definition rpcCommitAt : string :=
  "<commit-configuration><at-time>%s</at-time></commit-configuration>".
Definition rpcCommitCheck : string :=
  "<commit-configuration><check/></commit-configuration>".
Definition rpcCommitConfirm : string :=
  "<commit-configuration><confirmed/><confirm-timeout>%d</confirm-timeout></commit-configuration>".
Definition rpcConfigFileSet : string :=
  Eval cbv in "<load-configuration action=" ++ dq ++ "set" ++ dq ++ " format=" ++ dq ++ "text" ++ dq
              ++ "><configuration-set>%s</configuration-set></load-configuration>".
Definition rpcConfigFileText : string :=
  Eval cbv in "<load-configuration format=" ++ dq ++ "text" ++ dq
              ++ "><configuration-text>%s</configuration-text></load-configuration>".
Definition rpcConfigFileXML : string :=
  Eval cbv in "<load-configuration format=" ++ dq ++ "xml" ++ dq
              ++ "><configuration>%s</configuration></load-configuration>".
Definition rpcConfigURLSet : string :=
  Eval cbv in "<load-configuration action=" ++ dq ++ "set" ++ dq ++ " format=" ++ dq ++ "text" ++ dq
              ++ " url=" ++ dq ++ "%s" ++ dq ++ "/>".
Definition rpcConfigURLText : string :=
  Eval cbv in "<load-configuration format=" ++ dq ++ "text" ++ dq ++ " url=" ++ dq ++ "%s" ++ dq ++ "/>".
Definition rpcConfigURLXML : string :=
  Eval cbv in "<load-configuration format=" ++ dq ++ "xml" ++ dq ++ " url=" ++ dq ++ "%s" ++ dq ++ "/>".
Definition rpcConfigStringSet : string :=
  Eval cbv in "<load-configuration action=" ++ dq ++ "set" ++ dq ++ " format=" ++ dq ++ "text" ++ dq
              ++ "><configuration-set>%s</configuration-set></load-configuration>".
Definition rpcConfigStringText : string :=
  Eval cbv in "<load-configuration format=" ++ dq ++ "text" ++ dq
              ++ "><configuration-text>%s</configuration-text></load-configuration>".
Definition rpcConfigStringXML : string :=
  Eval cbv in "<load-configuration format=" ++ dq ++ "xml" ++ dq
              ++ "><configuration>%s</configuration></load-configuration>".
Definition rpcGetRollbackCompare : string :=
  "<get-rollback-information><rollback>0</rollback><compare>%d</compare><format>text</format></get-rollback-information>".
Definition rpcLock : string := "<lock><target><candidate/></target></lock>".
Definition rpcRescueConfig : string :=
  Eval cbv in "<load-configuration rescue=" ++ dq ++ "rescue" ++ dq ++ "/>".
Definition rpcRescueDelete : string := "<request-delete-rescue-configuration/>".
Definition rpcRescueSave : string := "<request-save-rescue-configuration/>".
Definition rpcRollbackConfig : string :=
  Eval cbv in "<load-configuration rollback=" ++ dq ++ "%d" ++ dq ++ "/>".
Definition rpcUnlock : string := "<unlock><target><candidate/></target></unlock>".
Definition rpcVersion : string := "<get-software-information/>".
Definition rpcReboot : string := "<request-reboot/>".
Definition rpcCommitHistory : string := "<get-commit-information/>".
Definition rpcFileList : string := "<file-list><detail/><path>%s</path></file-list>".

(** The structs of the package, a module each, so that the fields keep
    their Go names. *)
Module RoutingEngine.
Record t : Type := { Model : string; Version : string }.
End RoutingEngine.

Module Junos.
Record t : Type := {
  Session : netconf.Session;
  Hostname : string;
  RoutingEngines : Z;
  Platform : list RoutingEngine.t
}.
End Junos.

Module CommitEntry.
Record t : Type := {
  Sequence : Z;
  User : string;
  Method : string;
  Timestamp : string
}.
End CommitEntry.

Module CommitHistory.
Record t : Type := { Entries : list CommitEntry.t }.
End CommitHistory.

Module commandXML.
Record t : Type := { Config : string }.
End commandXML.

Module commitError.
Record t : Type := { Path : string; Element : string; Message : string }.
End commitError.

Module commitResults.
(** [Errors] is tested against nil. *)
Record t : Type := { Errors : option (list commitError.t) }.
End commitResults.

Module diffXML.
Record t : Type := { Config : string }.
End diffXML.

Module versionPackageInfo.
Record t : Type := {
  PackageName : list string;
  SoftwareVersion : list string
}.
End versionPackageInfo.

Module versionRouteEngine.
Record t : Type := {
  Hostname : string;
  Platform : string;
  PackageInfo : list versionPackageInfo.t
}.
End versionRouteEngine.

Module versionRouteEngines.
Record t : Type := { RE : list versionRouteEngine.t }.
End versionRouteEngines.

Module File.
(** The anonymous struct of [Permissions] and of [Date]: the format
    attribute. *)
Record formatted : Type := { Text : string }.

Record t : Type := {
  Name : string;
  Permissions : formatted;
  Owner : string;
  Group : string;
  Size : string;
  Date : formatted
}.
End File.

Module FileList.
Record t : Type := {
  Path : string;
  Total : string;
  Files : list File.t;
  Error : string
}.
End FileList.

Module xml.
(** [xml.Unmarshal(data, &v)] of package encoding/xml, one decoder for
    each struct the package decodes into: the decoded value, or the
    error. *)
Class Unmarshal : Type := {
  commandXML : string -> result commandXML.t;
  commitResults : string -> result commitResults.t;
  diffXML : string -> result diffXML.t;
  CommitHistory : string -> result CommitHistory.t;
  versionRouteEngines : string -> result versionRouteEngines.t;
  versionRouteEngine : string -> result versionRouteEngine.t;
  FileList : string -> result FileList.t
}.
End xml.

(* ================================================================== *)
(** * The world a call runs in *)
(* ================================================================== *)

(** What lies outside the package: whether a dial succeeds, what the
    device answers to the successive requests of the session, the local
    files.  [sent] records the payloads executed so far and [logged] the
    lines written to the standard logger. *)
Record World : Type := {
  dial : string -> string -> string -> option string;
  pending : list (result netconf.RPCReply);
  files : string -> result string;
  sent : list string;
  logged : list string
}.

Inductive panic : Type :=
| IndexOutOfRange (i len : nat).

(** How a call ends: it returns, the process exits, or it panics. *)
Inductive outcome (A : Type) : Type :=
| Ret (a : A)
| Exit (status : Z)
| Panic (p : panic).
Arguments Ret {A} a.
Arguments Exit {A} status.
Arguments Panic {A} p.

Definition M (A : Type) : Type := World -> outcome A * World.

Definition ret {A} (a : A) : M A := fun w => (Ret a, w).

Definition bind {A B} (m : M A) (f : A -> M B) : M B :=
  fun w =>
    match m w with
    | (Ret a, w') => f a w'
    | (Exit n, w') => (Exit n, w')
    | (Panic p, w') => (Panic p, w')
    end.

Notation "x <- m ;; k" := (bind m (fun x => k))
  (at level 61, m at next level, right associativity).

(** [l[i]]: the element, or the run-time panic. *)
Definition index {A} (l : list A) (i : nat) : M A :=
  fun w =>
    match nth_error l i with
    | Some a => (Ret a, w)
    | None => (Panic (IndexOutOfRange i (length l)), w)
    end.

(** [log.Fatal(err)]: the message goes to the logger and the process
    exits with status 1. *)
Definition log_Fatal {A} (msg : string) : M A :=
  fun w =>
    (Exit 1,
     {| dial := dial w; pending := pending w; files := files w;
        sent := sent w; logged := (logged w ++ [msg])%list |}).

(** [netconf.DialSSH(host, netconf.SSHConfigPassword(user, password))]. *)
Definition DialSSH (host user password : string) : M (result netconf.Session) :=
  fun w =>
    match dial w host user password with
    | Some msg => (Ret (Err msg), w)
    | None => (Ret (Ok (netconf.SSH host)), w)
    end.

(** [s.Exec(netconf.RawRPC(command))]: the payload is on the wire and the
    next answer of the device comes back; a session with no answer left
    fails. *)
Definition Exec (s : netconf.Session) (command : string) : M (result netconf.RPCReply) :=
  fun w =>
    let w' rest :=
      {| dial := dial w; pending := rest; files := files w;
         sent := (sent w ++ [command])%list; logged := logged w |} in
    match pending w with
    | r :: rest => (Ret r, w' rest)
    | [] => (Ret (Err "EOF"), w' [])
    end.

(** [ioutil.ReadFile(name)]. *)
Definition ReadFile (name : string) : M (result string) :=
  fun w => (Ret (files w name), w).

(** A loop over the indices [l], threading the variable the body
    updates. *)
Fixpoint foldM {A B} (body : B -> A -> M B) (l : list A) (b : B) : M B :=
  match l with
  | [] => ret b
  | a :: l' => b' <- body b a ;; foldM body l' b'
  end.

(** The indices of [for i := 0; i < n; i++] and of
    [for j := n - 1; j >= 0; j--]. *)
Definition upto (n : Z) : list nat := seq 0 (Z.to_nat n).
Definition downfrom (n : Z) : list nat := rev (seq 0 (Z.to_nat n)).

Definition nl : string := String (ascii_of_nat 10) EmptyString.
Definition cr : string := String (ascii_of_nat 13) EmptyString.

(* ================================================================== *)
(** * Package junos: the functions *)
(* ================================================================== *)

Section Package.

Context {decoder : xml.Unmarshal}.

(** The idiom every function has after [Exec]:
    [if reply.Errors != nil { for _, m := range reply.Errors { return errors.New(m.Message) } }]
    returns from the first iteration of the loop, if there is one. *)
Definition firstFault (errs : option (list netconf.RPCError)) : option string :=
  match errs with
  | None => None
  | Some l =>
      match l with
      | m :: _ => Some (netconf.Message m)
      | [] => None
      end
  end.

Definition errMessage : string :=
  "No output available. Please check the syntax of your command.".

(** Method [RunCommand(cmd, format string)] of [Junos]. *)
Definition RunCommand (j : Junos.t) (cmd format : string) : M (string * error) :=
  let command := fmt.Sprintf rpcCommand [AString cmd] in
  let command :=
    if String.eqb format "xml" then fmt.Sprintf rpcCommandXML [AString cmd]
    else command in
  r <- Exec (Junos.Session j) (netconf.RawRPC command) ;;
  match r with
  | Err err => ret (errMessage, Some err)
  | Ok reply =>
      match firstFault (netconf.Errors reply) with
      | Some m => ret (errMessage, errors.New m)
      | None =>
          if String.eqb (netconf.Data reply) EmptyString then ret (errMessage, None)
          else if String.eqb format "text" then
            match xml.commandXML (netconf.Data reply) with
            | Err err => ret (EmptyString, Some err)
            | Ok output => ret (commandXML.Config output, None)
            end
          else ret (netconf.Data reply, None)
      end
  end.

(** Method [CommitHistory()] of [Junos]. *)
Definition CommitHistory (j : Junos.t) : M (option CommitHistory.t * error) :=
  r <- Exec (Junos.Session j) (netconf.RawRPC rpcCommitHistory) ;;
  match r with
  | Err err => ret (None, Some err)
  | Ok reply =>
      match firstFault (netconf.Errors reply) with
      | Some m => ret (None, errors.New m)
      | None =>
          if String.eqb (netconf.Data reply) EmptyString
          then ret (None, errors.New "could not load commit history")
          else match xml.CommitHistory (netconf.Data reply) with
               | Err err => ret (None, Some err)
               | Ok history => ret (Some history, None)
               end
      end
  end.

(** The message of a commit error. *)
Definition commitMessage (m : commitError.t) : string :=
  let cutset := "[" ++ cr ++ nl ++ "]" in
  fmt.Sprintf ("[%s]" ++ nl ++ "    %s" ++ nl ++ "Error: %s")
    [AString (strings.Trim (commitError.Path m) cutset);
     AString (strings.Trim (commitError.Element m) cutset);
     AString (strings.Trim (commitError.Message m) cutset)].

(** What the four commit functions do with the answer to their request,
    in the same words in each of them. *)
Definition commitReply (r : result netconf.RPCReply) : M error :=
  match r with
  | Err err => ret (Some err)
  | Ok reply =>
      match firstFault (netconf.Errors reply) with
      | Some m => ret (errors.New m)
      | None =>
          match xml.commitResults (netconf.Data reply) with
          | Err err => ret (Some err)
          | Ok errs =>
              match commitResults.Errors errs with
              | Some (m :: _) => ret (errors.New (commitMessage m))
              | _ => ret None
              end
          end
      end
  end.

(** Method [Commit()] of [Junos]. *)
Definition Commit (j : Junos.t) : M error :=
  r <- Exec (Junos.Session j) (netconf.RawRPC rpcCommit) ;;
  commitReply r.

(** Method [CommitAt(time string)] of [Junos]. *)
Definition CommitAt (j : Junos.t) (time : string) : M error :=
  let command := fmt.Sprintf rpcCommitAt [AString time] in
  r <- Exec (Junos.Session j) (netconf.RawRPC command) ;;
  commitReply r.

(** Method [CommitCheck()] of [Junos]. *)
Definition CommitCheck (j : Junos.t) : M error :=
  r <- Exec (Junos.Session j) (netconf.RawRPC rpcCommitCheck) ;;
  commitReply r.

(** Method [CommitConfirm(delay int)] of [Junos]. *)
Definition CommitConfirm (j : Junos.t) (delay : Z) : M error :=
  let command := fmt.Sprintf rpcCommitConfirm [AInt delay] in
  r <- Exec (Junos.Session j) (netconf.RawRPC command) ;;
  commitReply r.

(** Method [ConfigDiff(compare int)] of [Junos]. *)
Definition ConfigDiff (j : Junos.t) (compare : Z) : M (string * error) :=
  let command := fmt.Sprintf rpcGetRollbackCompare [AInt compare] in
  r <- Exec (Junos.Session j) (netconf.RawRPC command) ;;
  match r with
  | Err err => ret (EmptyString, Some err)
  | Ok reply =>
      match firstFault (netconf.Errors reply) with
      | Some m => ret (EmptyString, errors.New m)
      | None =>
          match xml.diffXML (netconf.Data reply) with
          | Err err => ret (EmptyString, Some err)
          | Ok rb => ret (diffXML.Config rb, None)
          end
      end
  end.

(** The payload [GetConfig] builds from [section] and [format]. *)
Definition getConfigCommand (section format : string) : M string :=
  let secs := strings.Split section ">" in
  let nSecs := (Z.of_nat (length secs) - 1)%Z in
  let command :=
    fmt.Sprintf ("<get-configuration format=" ++ dq ++ "%s" ++ dq ++ "><configuration>")
      [AString format] in
  if String.eqb section "full"
  then ret (command ++ "</configuration></get-configuration>")
  else if (0 <=? nSecs)%Z then
    command <- foldM (fun command i =>
                        sec <- index secs i ;;
                        ret (command ++ fmt.Sprintf "<%s>" [AString sec]))
                     (upto nSecs) command ;;
    sec <- index secs (Z.to_nat nSecs) ;;
    let command := command ++ fmt.Sprintf "<%s/>" [AString sec] in
    command <- foldM (fun command j =>
                        sec <- index secs j ;;
                        ret (command ++ fmt.Sprintf "</%s>" [AString sec]))
                     (downfrom nSecs) command ;;
    ret (command ++ fmt.Sprint "</configuration></get-configuration>")
  else ret command.

(** Method [GetConfig(section, format string)] of [Junos]. *)
Definition GetConfig (j : Junos.t) (section format : string) : M (string * error) :=
  command <- getConfigCommand section format ;;
  r <- Exec (Junos.Session j) (netconf.RawRPC command) ;;
  match r with
  | Err err => ret (EmptyString, Some err)
  | Ok reply =>
      match firstFault (netconf.Errors reply) with
      | Some m => ret (EmptyString, errors.New m)
      | None =>
          if String.eqb format "text" then
            match xml.commandXML (netconf.Data reply) with
            | Err err => ret (EmptyString, Some err)
            | Ok output => ret (commandXML.Config output, None)
            end
          else ret (netconf.Data reply, None)
      end
  end.

(** One case of [switch format] in [Config]: the three cases differ in
    their templates only.  The result is the payload, or the error the
    function returns at once. *)
Definition loadCommand (rpcURL rpcString rpcFile : string) (path : any)
           (command : string) : M (result string) :=
  match path with
  | AString p =>
      let command :=
        if strings.Contains p "tp://" then fmt.Sprintf rpcURL [AString p]
        else command in
      r <- ReadFile p ;;
      match r with
      | Err _ =>
          let command := fmt.Sprintf rpcString [AString p] in
          ret (Ok command)
      | Ok _ =>
          r' <- ReadFile p ;;
          match r' with
          | Err err => ret (Err err)
          | Ok data =>
              let command := fmt.Sprintf rpcFile [AString data] in
              ret (Ok command)
          end
      end
  | AStrings l =>
      let command := fmt.Sprintf rpcString [AString (strings.Join l nl)] in
      ret (Ok command)
  | AInt _ => ret (Ok command)
  end.

(** Method [Config(path interface{}, format string, commit bool)] of [Junos]. *)
Definition Config (j : Junos.t) (path : any) (format : string) (commit : bool) : M error :=
  let command := EmptyString in
  c <- (if String.eqb format "set"
        then loadCommand rpcConfigURLSet rpcConfigStringSet rpcConfigFileSet path command
        else if String.eqb format "text"
        then loadCommand rpcConfigURLText rpcConfigStringText rpcConfigFileText path command
        else if String.eqb format "xml"
        then loadCommand rpcConfigURLXML rpcConfigStringXML rpcConfigFileXML path command
        else ret (Ok command)) ;;
  match c with
  | Err err => ret (Some err)
  | Ok command =>
      r <- Exec (Junos.Session j) (netconf.RawRPC command) ;;
      match r with
      | Err err => ret (Some err)
      | Ok reply =>
          err <- (if commit then Commit j else ret None) ;;
          match err with
          | Some e => ret (Some e)
          | None =>
              match firstFault (netconf.Errors reply) with
              | Some m => ret (errors.New m)
              | None => ret None
              end
          end
      end
  end.

(** What [Lock], [Rescue], [Unlock] and [Reboot] do with the answer to
    their request, in the same words in each of them. *)
Definition plainReply (r : result netconf.RPCReply) : M error :=
  match r with
  | Err err => ret (Some err)
  | Ok reply =>
      match firstFault (netconf.Errors reply) with
      | Some m => ret (errors.New m)
      | None => ret None
      end
  end.

(** Method [Lock()] of [Junos]. *)
Definition Lock (j : Junos.t) : M error :=
  r <- Exec (Junos.Session j) (netconf.RawRPC rpcLock) ;;
  plainReply r.

(** The pattern of [NewSession], compiled: from the start of the text a
    greedy run of any characters, an opening bracket, a group that holds
    a greedy run of any characters, a closing bracket. *)
Definition rex : regexp.Regexp :=
  [regexp.BeginText;
   regexp.StarGreedy regexp.AnyCharNotNL;
   regexp.One (regexp.Byte "["%char);
   regexp.Save 2;
   regexp.StarGreedy regexp.AnyCharNotNL;
   regexp.Save 3;
   regexp.One (regexp.Byte "]"%char)].

(** The facts of one routing engine: the version is the group of the
    pattern in the first comment of the first package, the model is in
    upper case. *)
Definition engineFacts (re : versionRouteEngine.t) : M RoutingEngine.t :=
  info <- index (versionRouteEngine.PackageInfo re) 0 ;;
  comment <- index (versionPackageInfo.SoftwareVersion info) 0 ;;
  let version := regexp.FindStringSubmatch rex comment in
  let model := strings.ToUpper (versionRouteEngine.Platform re) in
  v1 <- index version 1 ;;
  ret {| RoutingEngine.Model := model; RoutingEngine.Version := v1 |}.

(** Function [NewSession(host, user, password string)]. *)
Definition NewSession (host user password : string) : M (option Junos.t * error) :=
  d <- DialSSH host user password ;;
  s <- match d with
       | Err err => log_Fatal err
       | Ok s => ret s
       end ;;
  r <- Exec s (netconf.RawRPC rpcVersion) ;;
  match r with
  | Err err => ret (None, Some err)
  | Ok reply =>
      match firstFault (netconf.Errors reply) with
      | Some m => ret (None, errors.New m)
      | None =>
          if strings.Contains (netconf.Data reply) "multi-routing-engine-results"
          then
            match xml.versionRouteEngines (netconf.Data reply) with
            | Err err => ret (None, Some err)
            | Ok facts =>
                let numRE := length (versionRouteEngines.RE facts) in
                re0 <- index (versionRouteEngines.RE facts) 0 ;;
                let hostname := versionRouteEngine.Hostname re0 in
                res <- foldM (fun res i =>
                                re <- index (versionRouteEngines.RE facts) i ;;
                                e <- engineFacts re ;;
                                ret (res ++ [e])%list)
                             (upto (Z.of_nat numRE)) [] ;;
                ret (Some {| Junos.Session := s;
                             Junos.Hostname := hostname;
                             Junos.RoutingEngines := Z.of_nat numRE;
                             Junos.Platform := res |},
                     None)
            end
          else
            match xml.versionRouteEngine (netconf.Data reply) with
            | Err err => ret (None, Some err)
            | Ok facts =>
                let res := [] in
                let hostname := versionRouteEngine.Hostname facts in
                e <- engineFacts facts ;;
                let res := (res ++ [e])%list in
                ret (Some {| Junos.Session := s;
                             Junos.Hostname := hostname;
                             Junos.RoutingEngines := 1;
                             Junos.Platform := res |},
                     None)
            end
      end
  end.

(** Method [Rescue(action string)] of [Junos]. *)
Definition Rescue (j : Junos.t) (action : string) : M error :=
  let command := fmt.Sprintf rpcRescueSave [] in
  let command :=
    if String.eqb action "delete" then fmt.Sprintf rpcRescueDelete []
    else command in
  r <- Exec (Junos.Session j) (netconf.RawRPC command) ;;
  plainReply r.

(** Method [RollbackConfig(option interface{})] of [Junos]. *)
Definition RollbackConfig (j : Junos.t) (option : any) : M error :=
  let command := fmt.Sprintf rpcRollbackConfig [option] in
  let command :=
    match option with
    | AString s => if String.eqb s "rescue" then fmt.Sprintf rpcRescueConfig [] else command
    | _ => command
    end in
  r <- Exec (Junos.Session j) (netconf.RawRPC command) ;;
  match r with
  | Err err => ret (Some err)
  | Ok reply =>
      err <- Commit j ;;
      match err with
      | Some e => ret (Some e)
      | None =>
          match firstFault (netconf.Errors reply) with
          | Some m => ret (errors.New m)
          | None => ret None
          end
      end
  end.

(** Method [Unlock()] of [Junos]. *)
Definition Unlock (j : Junos.t) : M error :=
  r <- Exec (Junos.Session j) (netconf.RawRPC rpcUnlock) ;;
  plainReply r.

(** Method [Reboot()] of [Junos]. *)
Definition Reboot (j : Junos.t) : M error :=
  r <- Exec (Junos.Session j) (netconf.RawRPC rpcReboot) ;;
  plainReply r.

(** Method [Files(path string)] of [Junos]. *)
Definition Files (j : Junos.t) (path : string) : M (option FileList.t * error) :=
  let dir := strings.TrimRight path "/" in
  let command := fmt.Sprintf rpcFileList [AString (dir ++ "/")] in
  r <- Exec (Junos.Session j) (netconf.RawRPC command) ;;
  match r with
  | Err err => ret (None, Some err)
  | Ok reply =>
      match firstFault (netconf.Errors reply) with
      | Some m => ret (None, errors.New m)
      | None =>
          if String.eqb (netconf.Data reply) EmptyString
          then ret (None, errors.New errMessage)
          else
            let data := strings.Replace (netconf.Data reply) nl EmptyString in
            match xml.FileList data with
            | Err err => ret (None, Some err)
            | Ok files =>
                if (0 <? String.length (FileList.Error files))%nat
                then ret (None,
                          errors.New (fmt.Sprintf "%s: No such file or directory"
                                                  [AString path]))
                else ret (Some files, None)
            end
      end
  end.

End Package.

(* ================================================================== *)
(** * Observations on a run *)
(* ================================================================== *)

(** The payloads a call put on the wire, in order: what [sent] holds
    after the call beyond what it held before. *)
Definition payloads (w w' : World) : list string :=
  skipn (length (sent w)) (sent w').

(** [w], with [r] the device's next answer. *)
Definition answering (w : World) (r : result netconf.RPCReply) : World :=
  {| dial := dial w; pending := r :: pending w; files := files w;
     sent := sent w; logged := logged w |}.

Definition reply (data : string) (errs : option (list netconf.RPCError)) : netconf.RPCReply :=
  {| netconf.Data := data; netconf.Errors := errs |}.

(** A string with no occurrence of the byte [a]. *)
Fixpoint lacks (a : ascii) (s : string) : bool :=
  match s with
  | EmptyString => true
  | String c s' => negb (Ascii.eqb c a) && lacks a s'
  end.

(** The spec's words for joining lines: a single newline between two
    consecutive lines, and nowhere else. *)
Fixpoint joinLines (lines : list string) : string :=
  match lines with
  | [] => EmptyString
  | [l] => l
  | l :: rest => l ++ nl ++ joinLines rest
  end.

(** The spec's words for a section path: each component but the last
    wraps what lies deeper in its opening and closing tag; the last is a
    self-closing tag. *)
Fixpoint wrap (outer : list string) (inner : string) : string :=
  match outer with
  | [] => inner
  | t :: rest => "<" ++ t ++ ">" ++ wrap rest inner ++ "</" ++ t ++ ">"
  end.


(** The payload of [GetConfig], as a function of its arguments. *)
Definition getConfigPayload (section format : string) : string :=
  let secs := strings.Split section ">" in
  let n := (List.length secs - 1)%nat in
  let command := "<get-configuration format=" ++ dq ++ format ++ dq ++ "><configuration>" in
  if String.eqb section "full"
  then command ++ "</configuration></get-configuration>"
  else
    fold_left (fun command j => command ++ "</" ++ nth j secs EmptyString ++ ">")
      (rev (seq 0 n))
      (fold_left (fun command i => command ++ "<" ++ nth i secs EmptyString ++ ">")
         (seq 0 n) command
       ++ "<" ++ nth n secs EmptyString ++ "/>")
    ++ "</configuration></get-configuration>".

(** The line feed, which [.] does not match. *)
Definition LF : ascii := ascii_of_nat 10.

(** The instructions of [rex] after the opening bracket, and after the
    group. *)
Definition rexGroup : regexp.Regexp :=
  [regexp.Save 2; regexp.StarGreedy regexp.AnyCharNotNL; regexp.Save 3;
   regexp.One (regexp.Byte "]")].
Definition rexClose : regexp.Regexp := [regexp.Save 3; regexp.One (regexp.Byte "]")].

(** [e] holds the facts of the engine [re]: its model in upper case, and
    as version the group of [rex] in the first comment of the first
    package. *)
Definition factsOf (re : versionRouteEngine.t) (e : RoutingEngine.t) : Prop :=
  RoutingEngine.Model e = strings.ToUpper (versionRouteEngine.Platform re)
  /\ exists info comment,
      nth_error (versionRouteEngine.PackageInfo re) 0 = Some info
      /\ nth_error (versionPackageInfo.SoftwareVersion info) 0 = Some comment
      /\ nth_error (regexp.FindStringSubmatch rex comment) 1 = Some (RoutingEngine.Version e).

(** [w], with [msg] written to the logger. *)
Definition logging (w : World) (msg : string) : World :=
  {| dial := dial w; pending := pending w; files := files w;
     sent := sent w; logged := (logged w ++ [msg])%list |}.

(** The text [Config] loads for a string [path]: the content of the
    local file of that name, or [path] itself when no such file can be
    read. *)
Definition loadedText (w : World) (path : string) : string :=
  match files w path with
  | Ok data => data
  | Err _ => path
  end.

(** A device for the examples.  It accepts the password "secret" and has
    no local file.  Its decoder is a stand-in for encoding/xml: a
    single-engine reply decodes to the router "r1", a multi-engine reply
    to the two members of the switch "sw1", and a directory listing
    carries an error when the reply has an output element. *)
Definition fixtureEngine (host model comment : string) : versionRouteEngine.t :=
  {| versionRouteEngine.Hostname := host;
     versionRouteEngine.Platform := model;
     versionRouteEngine.PackageInfo :=
       [{| versionPackageInfo.PackageName := ["junos"];
           versionPackageInfo.SoftwareVersion := [comment] |}] |}.

Definition fixtureDecoder : xml.Unmarshal := {|
  xml.commandXML := fun data => Ok {| commandXML.Config := data |};
  xml.commitResults := fun _ => Ok {| commitResults.Errors := None |};
  xml.diffXML := fun data => Ok {| diffXML.Config := data |};
  xml.CommitHistory := fun _ => Ok {| CommitHistory.Entries := [] |};
  xml.versionRouteEngines := fun _ =>
    Ok {| versionRouteEngines.RE :=
            [fixtureEngine "sw1" "ex4300-48t" "JUNOS EX Software Suite [18.4R2.7]";
             fixtureEngine "sw1" "ex4300-24p" "JUNOS EX Software Suite [18.4R3.3]"] |};
  xml.versionRouteEngine := fun _ =>
    Ok (fixtureEngine "r1" "mx960" "JUNOS Base OS boot [20.4R3.8]");
  xml.FileList := fun data =>
    Ok {| FileList.Path := EmptyString;
          FileList.Total := EmptyString;
          FileList.Files := [];
          FileList.Error :=
            if strings.Contains data "<output>" then "No such file or directory"
            else EmptyString |}
|}.

Definition fixtureWorld (answers : list (result netconf.RPCReply)) : World :=
  {| dial := fun _ _ password =>
       if String.eqb password "secret" then None
       else Some "ssh: handshake failed: unable to authenticate";
     pending := answers;
     files := fun _ => Err "no such file or directory";
     sent := [];
     logged := [] |}.

Definition fixtureSession : Junos.t :=
  {| Junos.Session := netconf.SSH "r1";
     Junos.Hostname := "r1";
     Junos.RoutingEngines := 1;
     Junos.Platform := [{| RoutingEngine.Model := "MX960";
                           RoutingEngine.Version := "20.4R3.8" |}] |}.

Definition fixtureStack : Junos.t :=
  {| Junos.Session := netconf.SSH "sw1";
     Junos.Hostname := "sw1";
     Junos.RoutingEngines := 2;
     Junos.Platform := [{| RoutingEngine.Model := "EX4300-48T";
                           RoutingEngine.Version := "18.4R2.7" |};
                        {| RoutingEngine.Model := "EX4300-24P";
                           RoutingEngine.Version := "18.4R3.3" |}] |}.

(* ================================================================== *)
(** * Package junos: printing the facts *)
(* ================================================================== *)

Module regexq.

(** The patterns of [PrintFacts] need one construct more than the
    instructions of [regexp]: the greedy optional, [k?]. *)
Inductive inst : Type :=
| Plain (i : regexp.inst)
| Quest (k : regexp.class).

Definition Regexp := list inst.

Fixpoint run (prog : Regexp) (pos : nat) (s : string) (c : regexp.caps)
  : option regexp.caps :=
  match prog with
  | [] => Some ((1, pos) :: c)
  | Plain regexp.BeginText :: p => if Nat.eqb pos 0 then run p pos s c else None
  | Plain (regexp.One k) :: p =>
      match s with
      | String a s' => if regexp.accepts k a then run p (S pos) s' c else None
      | EmptyString => None
      end
  | Plain (regexp.StarGreedy k) :: p =>
      regexp.star k (fun pos' s' => run p pos' s' c) pos s
  | Plain (regexp.Save n) :: p => run p pos s ((n, pos) :: c)
  | Quest k :: p =>
      match s with
      | String a s' =>
          if regexp.accepts k a
          then match run p (S pos) s' c with
               | Some r => Some r
               | None => run p pos s c
               end
          else run p pos s c
      | EmptyString => run p pos s c
      end
  end.

Fixpoint search (prog : Regexp) (pos : nat) (s : string) : option regexp.caps :=
  match run prog pos s [(0, pos)] with
  | Some c => Some c
  | None =>
      match s with
      | String _ s' => search prog (S pos) s'
      | EmptyString => None
      end
  end.

(** [re.FindString(s)]: the text of the leftmost match, or the empty
    string when there is none. *)
Definition FindString (re : Regexp) (s : string) : string :=
  match search re 0 s with
  | Some c => regexp.group s c 0
  | None => EmptyString
  end.

End regexq.

(** The patterns of [PrintFacts], compiled: from the start of the text
    the group "EX", "SRX", or "M" with an optional "X", and then a
    greedy run of any characters. *)
Definition fpcRegex : regexq.Regexp :=
  [regexq.Plain regexp.BeginText;
   regexq.Plain (regexp.Save 2);
   regexq.Plain (regexp.One (regexp.Byte "E"));
   regexq.Plain (regexp.One (regexp.Byte "X"));
   regexq.Plain (regexp.Save 3);
   regexq.Plain (regexp.StarGreedy regexp.AnyCharNotNL)].

Definition srxRegex : regexq.Regexp :=
  [regexq.Plain regexp.BeginText;
   regexq.Plain (regexp.Save 2);
   regexq.Plain (regexp.One (regexp.Byte "S"));
   regexq.Plain (regexp.One (regexp.Byte "R"));
   regexq.Plain (regexp.One (regexp.Byte "X"));
   regexq.Plain (regexp.Save 3);
   regexq.Plain (regexp.StarGreedy regexp.AnyCharNotNL)].

Definition mRegex : regexq.Regexp :=
  [regexq.Plain regexp.BeginText;
   regexq.Plain (regexp.Save 2);
   regexq.Plain (regexp.One (regexp.Byte "M"));
   regexq.Quest (regexp.Byte "X");
   regexq.Plain (regexp.Save 3);
   regexq.Plain (regexp.StarGreedy regexp.AnyCharNotNL)].

(** The rule under the heading of an engine. *)
Definition rule : string :=
  "--------------------------------------------------------------------------".

(** [for i, p := range l]: the elements with their indices. *)
Definition indexed {A} (l : list A) : list (nat * A) :=
  combine (seq 0 (List.length l)) l.

(** The body of the loop of [PrintFacts]: what the engine [p] at index
    [i] adds to [str]. *)
Definition printEngine (j : Junos.t) (str : string) (i : nat) (p : RoutingEngine.t)
  : string :=
  let model := RoutingEngine.Model p in
  let version := RoutingEngine.Version p in
  if String.eqb model (regexq.FindString fpcRegex model) then
    let str := str ++ fmt.Sprintf ("fpc%d" ++ nl ++ rule ++ nl) [AInt (Z.of_nat i)] in
    str ++ fmt.Sprintf ("Hostname: %s" ++ nl ++ "Model: %s" ++ nl ++ "Version: %s" ++ nl ++ nl)
             [AString (Junos.Hostname j); AString model; AString version]
  else if String.eqb model (regexq.FindString srxRegex model) then
    let str := str ++ fmt.Sprintf ("node%d" ++ nl ++ rule ++ nl) [AInt (Z.of_nat i)] in
    str ++ fmt.Sprintf ("Hostname: %s" ++ nl ++ "Model: %s" ++ nl ++ "Version: %s" ++ nl ++ nl)
             [AString (Junos.Hostname j); AString model; AString version]
  else if String.eqb model (regexq.FindString mRegex model) then
    let str := str ++ fmt.Sprintf ("re%d" ++ nl ++ rule ++ nl) [AInt (Z.of_nat i)] in
    str ++ fmt.Sprintf ("Hostname: %s" ++ nl ++ "Model: %s" ++ nl ++ "Version: %s" ++ nl ++ nl)
             [AString (Junos.Hostname j); AString model; AString version]
  else str.

(** Method [PrintFacts()] of [Junos]: the text it hands to
    [fmt.Println]. *)
Definition PrintFacts (j : Junos.t) : string :=
  let str := EmptyString in
  let str :=
    str ++ fmt.Sprintf ("Routing Engines/FPC's: %d" ++ nl ++ nl)
             [AInt (Junos.RoutingEngines j)] in
  fold_left (fun str ip => printEngine j str (fst ip) (snd ip))
            (indexed (Junos.Platform j)) str.

(** The heading [PrintFacts] gives an engine, by its model: none for a
    model of another family. *)
Definition engineLabel (model : string) : option string :=
  if String.eqb model EmptyString || prefix "EX" model then Some "fpc"
  else if prefix "SRX" model then Some "node"
  else if prefix "M" model then Some "re"
  else None.

(** What [PrintFacts] prints for the engine [p] at index [i]. *)
Definition engineText (hostname : string) (i : nat) (p : RoutingEngine.t) : string :=
  match engineLabel (RoutingEngine.Model p) with
  | Some label =>
      label ++ fmt.itoa (Z.of_nat i) ++ nl ++ rule ++ nl
      ++ "Hostname: " ++ hostname ++ nl
      ++ "Model: " ++ RoutingEngine.Model p ++ nl
      ++ "Version: " ++ RoutingEngine.Version p ++ nl ++ nl
  | None => EmptyString
  end.

(** The heading line of [PrintFacts]. *)
Definition factsHeading (j : Junos.t) : string :=
  "Routing Engines/FPC's: " ++ fmt.itoa (Junos.RoutingEngines j) ++ nl ++ nl.

(** The literal [l], one instruction for each byte. *)
Fixpoint lits (l : string) : regexq.Regexp :=
  match l with
  | EmptyString => []
  | String ch l' => regexq.Plain (regexp.One (regexp.Byte ch)) :: lits l'
  end.

(** A tail of a pattern that takes the rest of a one-line text. *)
Definition takesRest (tail : regexq.Regexp) : Prop :=
  forall pos s c,
    lacks LF s = true ->
    exists k,
      regexq.run tail pos s c = Some ((1, pos + String.length s) :: (3, k) :: c)%nat.

(* ================================================================== *)
(** * More observations *)
(* ================================================================== *)

(** [w], with a next answer that carries the faults [m :: ms]. *)
Definition faulting (w : World) (data : string) (m : netconf.RPCError)
           (ms : list netconf.RPCError) : World :=
  answering w (Ok (reply data (Some (m :: ms)))).

(** [w], with a next request that fails in the transport. *)
Definition failing (w : World) (msg : string) : World :=
  answering w (Err msg).

(** The payload stage of [Config]: the switch on the syntax. *)
Definition configCommand (path : any) (format : string) : M (result string) :=
  if String.eqb format "set"
  then loadCommand rpcConfigURLSet rpcConfigStringSet rpcConfigFileSet path EmptyString
  else if String.eqb format "text"
  then loadCommand rpcConfigURLText rpcConfigStringText rpcConfigFileText path EmptyString
  else if String.eqb format "xml"
  then loadCommand rpcConfigURLXML rpcConfigStringXML rpcConfigFileXML path EmptyString
  else ret (Ok EmptyString).

(** Every byte of [s] is in [cutset]. *)
Fixpoint allIn (cutset s : string) : bool :=
  match s with
  | EmptyString => true
  | String c s' => strings.inCutset c cutset && allIn cutset s'
  end.

(** [s] is empty or begins, and ends, with a byte outside [cutset]. *)
Definition firstOut (cutset s : string) : bool :=
  match s with
  | EmptyString => true
  | String c _ => negb (strings.inCutset c cutset)
  end.

Fixpoint lastOut (cutset s : string) : bool :=
  match s with
  | EmptyString => true
  | String c EmptyString => negb (strings.inCutset c cutset)
  | String _ s' => lastOut cutset s'
  end.

(** [field] is [core] between two runs of bytes of [cutset], and [core]
    has no such byte at either end. *)
Definition wraps (cutset core field : string) : Prop :=
  exists l r,
    field = l ++ core ++ r
    /\ allIn cutset l = true /\ allIn cutset r = true
    /\ firstOut cutset core = true /\ lastOut cutset core = true.

(** The cutset of the commit errors: brackets, carriage return, line
    feed. *)
Definition commitCutset : string := "[" ++ cr ++ nl ++ "]".

(** A decoder for the examples that answers with given values. *)
Definition constDecoder (commit : result commitResults.t)
           (multi : result versionRouteEngines.t)
           (single : result versionRouteEngine.t) : xml.Unmarshal := {|
  xml.commandXML := fun data => Ok {| commandXML.Config := data |};
  xml.commitResults := fun _ => commit;
  xml.diffXML := fun data => Ok {| diffXML.Config := data |};
  xml.CommitHistory := fun _ => Err "EOF";
  xml.versionRouteEngines := fun _ => multi;
  xml.versionRouteEngine := fun _ => single;
  xml.FileList := fun _ => Err "EOF"
|}.

(** The fixture device on a machine that has the file "junos.conf". *)
Definition fileWorld (answers : list (result netconf.RPCReply)) : World :=
  {| dial := dial (fixtureWorld answers);
     pending := answers;
     files := fun name =>
       if String.eqb name "junos.conf" then Ok "set system host-name R1"
       else Err "no such file or directory";
     sent := [];
     logged := [] |}.

(* ================================================================== *)
(** * Lemmas on strings and lists *)
(* ================================================================== *)

Lemma append_assoc (a b c : string) : (a ++ b) ++ c = a ++ (b ++ c).
Proof. induction a as [|x a IH]; simpl; [reflexivity | now rewrite IH]. Qed.

Lemma length_append (a b : string) :
  String.length (a ++ b) = (String.length a + String.length b)%nat.
Proof. induction a as [|x a IH]; simpl; [reflexivity | now rewrite IH]. Qed.

Lemma substring_0_append (a b : string) :
  substring 0 (String.length a) (a ++ b) = a.
Proof. induction a as [|x a IH]; simpl; [now destruct b | now rewrite IH]. Qed.

Lemma substring_skip_append (a b : string) (n : nat) :
  substring (String.length a) n (a ++ b) = substring 0 n b.
Proof. induction a as [|x a IH]; simpl; [reflexivity | exact IH]. Qed.

Lemma payloads_app (w w' : World) (l : list string) :
  sent w' = (sent w ++ l)%list -> payloads w w' = l.
Proof.
  intros E. unfold payloads. rewrite E.
  rewrite skipn_app, skipn_all, Nat.sub_diag. reflexivity.
Qed.

Lemma fold_left_join (sep : string) (rest : list string) (a b : string) :
  fold_left (fun b s => (b ++ sep ++ s)%string) rest (a ++ b)
  = a ++ fold_left (fun b s => (b ++ sep ++ s)%string) rest b.
Proof.
  revert b. induction rest as [|x rest IH]; intros b; simpl; [reflexivity|].
  rewrite <- IH. now rewrite append_assoc.
Qed.

(** [strings.Join] with a newline is the spec's [joinLines]. *)
Lemma Join_joinLines (lines : list string) : strings.Join lines nl = joinLines lines.
Proof.
  destruct lines as [|l rest]; [reflexivity|].
  revert l. induction rest as [|x rest IH]; intros l; [reflexivity|].
  change (strings.Join (l :: x :: rest) nl)
    with (fold_left (fun b s => (b ++ nl ++ s)%string) rest (l ++ nl ++ x)).
  change (joinLines (l :: x :: rest)) with (l ++ nl ++ joinLines (x :: rest)).
  rewrite <- IH. unfold strings.Join.
  rewrite <- append_assoc, fold_left_join. now rewrite append_assoc.
Qed.

(* ================================================================== *)
(** * The pattern of the version *)
(* ================================================================== *)

Lemma lacks_cons (a c : ascii) (s : string) :
  lacks a (String c s) = true -> c <> a /\ lacks a s = true.
Proof.
  simpl. intros H. apply andb_true_iff in H. destruct H as [Hc Hs].
  apply negb_true_iff, Ascii.eqb_neq in Hc. now split.
Qed.

Lemma accepts_any (c : ascii) :
  c <> LF -> regexp.accepts regexp.AnyCharNotNL c = true.
Proof. intros H. apply negb_true_iff, Ascii.eqb_neq, H. Qed.

Lemma accepts_byte_neq (a c : ascii) :
  c <> a -> regexp.accepts (regexp.Byte a) c = false.
Proof. intros H. now apply Ascii.eqb_neq. Qed.

(** A greedy star passes a run it accepts when a match lies beyond. *)
Lemma star_skip (cont : nat -> string -> option regexp.caps) (a b : string)
      (pos : nat) (r : regexp.caps) :
  lacks LF a = true ->
  regexp.star regexp.AnyCharNotNL cont (pos + String.length a) b = Some r ->
  regexp.star regexp.AnyCharNotNL cont pos (a ++ b) = Some r.
Proof.
  revert pos. induction a as [|c a IH]; intros pos Ha Hb.
  - simpl in *. now rewrite Nat.add_0_r in Hb.
  - apply lacks_cons in Ha. destruct Ha as [Hc Ha].
    cbn [append regexp.star]. rewrite accepts_any by exact Hc.
    rewrite (IH (S pos) Ha); [reflexivity|].
    simpl in Hb. now rewrite Nat.add_succ_r in Hb.
Qed.

(** No closing bracket ahead: the group cannot be closed. *)
Lemma close_fails (u : string) (pos : nat) (c : regexp.caps) :
  lacks "]" u = true ->
  regexp.star regexp.AnyCharNotNL (fun p s => regexp.run rexClose p s c) pos u = None.
Proof.
  revert pos. induction u as [|a u IH]; intros pos H; [reflexivity|].
  apply lacks_cons in H. destruct H as [Ha Hu].
  cbn [regexp.star]. rewrite (IH (S pos) Hu).
  cbn [regexp.run rexClose]. rewrite accepts_byte_neq by exact Ha.
  now destruct (regexp.accepts regexp.AnyCharNotNL a).
Qed.

(** The group takes [v] when the bracket after it is the last one. *)
Lemma group_matches (v post : string) (pos : nat) (c : regexp.caps) :
  lacks LF v = true ->
  lacks "]" post = true ->
  regexp.star regexp.AnyCharNotNL (fun p s => regexp.run rexClose p s c) pos
    (v ++ String "]" post)
  = Some ((1, S (pos + String.length v)) :: (3, pos + String.length v) :: c)%nat.
Proof.
  intros Hv Hp. apply star_skip; [exact Hv|].
  cbn [regexp.star regexp.accepts]. 
  change (negb ("]" =? "010")%char) with true. cbn iota.
  rewrite close_fails by exact Hp. reflexivity.
Qed.

(** Past the last opening bracket that a closing one follows, no match
    starts. *)
Lemma open_fails_after (post : string) (pos : nat) (c : regexp.caps) :
  lacks "]" post = true ->
  regexp.star regexp.AnyCharNotNL
    (fun p s => regexp.run (regexp.One (regexp.Byte "[") :: rexGroup) p s c) pos post
  = None.
Proof.
  revert pos. induction post as [|a post IH]; intros pos H; [reflexivity|].
  pose proof H as H'. apply lacks_cons in H'. destruct H' as [Ha Hp].
  assert (K : regexp.run (regexp.One (regexp.Byte "[") :: rexGroup) pos (String a post) c
              = None).
  { cbn [regexp.run rexGroup]. destruct (regexp.accepts (regexp.Byte "[") a); [|reflexivity].
    apply close_fails, Hp. }
  cbn [regexp.star]. rewrite (IH (S pos) Hp), K.
  now destruct (regexp.accepts regexp.AnyCharNotNL a).
Qed.

Lemma open_fails_inside (v post : string) (pos : nat) (c : regexp.caps) :
  lacks "[" v = true ->
  lacks "]" post = true ->
  regexp.star regexp.AnyCharNotNL
    (fun p s => regexp.run (regexp.One (regexp.Byte "[") :: rexGroup) p s c) pos
    (v ++ String "]" post)
  = None.
Proof.
  intros Hv Hp. revert pos. induction v as [|a v IH]; intros pos.
  - cbn [append regexp.star]. rewrite open_fails_after by exact Hp.
    now destruct (regexp.accepts regexp.AnyCharNotNL "]").
  - apply lacks_cons in Hv. destruct Hv as [Ha Hv].
    cbn [append regexp.star]. rewrite (IH Hv (S pos)).
    cbn [regexp.run]. rewrite accepts_byte_neq by exact Ha.
    now destruct (regexp.accepts regexp.AnyCharNotNL a).
Qed.

Lemma star_cons (k : regexp.class) (cont : nat -> string -> option regexp.caps)
      (pos : nat) (a : ascii) (s : string) :
  regexp.star k cont pos (String a s)
  = if regexp.accepts k a
    then match regexp.star k cont (S pos) s with
         | Some r => Some r
         | None => cont pos (String a s)
         end
    else cont pos (String a s).
Proof. reflexivity. Qed.

Lemma run_rex (s : string) (c : regexp.caps) :
  regexp.run rex 0 s c
  = regexp.star regexp.AnyCharNotNL
      (fun p s' => regexp.run (regexp.One (regexp.Byte "[") :: rexGroup) p s' c) 0 s.
Proof. reflexivity. Qed.

Lemma run_open (p : nat) (s : string) (c : regexp.caps) :
  regexp.run (regexp.One (regexp.Byte "[") :: rexGroup) p (String "[" s) c
  = regexp.star regexp.AnyCharNotNL
      (fun p' s' => regexp.run rexClose p' s' ((2, S p) :: c)%nat) (S p) s.
Proof. reflexivity. Qed.

(** What [rex] finds in a comment whose last bracketed token is [v]. *)
Lemma rex_submatch (pre v post : string) :
  lacks LF pre = true ->
  lacks LF v = true ->
  lacks "[" v = true ->
  lacks "]" post = true ->
  regexp.FindStringSubmatch rex (pre ++ "[" ++ v ++ "]" ++ post)
  = [pre ++ "[" ++ v ++ "]"; v].
Proof.
  intros Hpre Hv Hv' Hpost.
  assert (R : regexp.run rex 0 (pre ++ "[" ++ v ++ "]" ++ post) [(0, 0)%nat]
              = Some [(1, S (S (String.length pre) + String.length v));
                      (3, S (String.length pre) + String.length v);
                      (2, S (String.length pre)); (0, 0)]%nat).
  { change ("[" ++ v ++ "]" ++ post) with (String "[" (v ++ String "]" post)).
    rewrite run_rex. apply star_skip; [exact Hpre|].
    rewrite star_cons. change (regexp.accepts regexp.AnyCharNotNL "[") with true.
    cbv iota. rewrite open_fails_inside by assumption.
    rewrite run_open. apply group_matches; assumption. }
  unfold regexp.FindStringSubmatch.
  assert (S0 : regexp.search rex 0 (pre ++ "[" ++ v ++ "]" ++ post)
               = Some [(1, S (S (String.length pre) + String.length v));
                       (3, S (String.length pre) + String.length v);
                       (2, S (String.length pre)); (0, 0)]%nat).
  { destruct (pre ++ "[" ++ v ++ "]" ++ post); cbn [regexp.search]; now rewrite R. }
  rewrite S0. clear R S0.
  change (regexp.numGroups rex) with 1%nat. cbn [seq map].
  unfold regexp.group. cbn [regexp.slot Nat.eqb Nat.mul Nat.add]. cbv iota.
  rewrite !Nat.sub_0_r.
  replace (S (String.length pre + String.length v) - S (String.length pre))%nat
    with (String.length v) by lia.
  f_equal; [|f_equal].
  - rewrite <- (append_assoc pre), <- (append_assoc (pre ++ "[")),
      <- (append_assoc ((pre ++ "[") ++ v)),
      (append_assoc (pre ++ "[")), (append_assoc pre).
    rewrite <- (substring_0_append (pre ++ "[" ++ v ++ "]") post) at 2.
    f_equal. rewrite !length_append. simpl. lia.
  - rewrite <- (append_assoc pre).
    rewrite <- (substring_0_append v ("]" ++ post)) at 3.
    rewrite <- (substring_skip_append (pre ++ "[") (v ++ "]" ++ post)).
    f_equal. rewrite length_append. simpl. lia.
Qed.

(* ================================================================== *)
(** * Properties of the gateway *)
(* ================================================================== *)


Section Gateway.

Context {decoder : xml.Unmarshal}.

Lemma sent_Exec s command w :
  sent (snd (Exec s command w)) = (sent w ++ [command])%list.
Proof. unfold Exec. destruct (pending w); reflexivity. Qed.

Lemma commitReply_world r w : snd (commitReply r w) = w.
Proof.
  unfold commitReply. destruct r as [rp|e]; [|reflexivity].
  destruct (firstFault _); [reflexivity|].
  destruct (xml.commitResults _) as [errs|e]; [|reflexivity].
  destruct (commitResults.Errors errs) as [[|m l]|]; reflexivity.
Qed.

Lemma sent_Commit j w : sent (snd (Commit j w)) = (sent w ++ [rpcCommit])%list.
Proof.
  unfold Commit, bind.
  pose proof (sent_Exec (Junos.Session j) (netconf.RawRPC rpcCommit) w) as E.
  destruct (Exec _ _ w) as [[r|n|p] w1]; simpl in E; simpl; try exact E.
  now rewrite commitReply_world.
Qed.

(** After the payload is chosen, [Config] sends it first, whatever
    follows. *)
Lemma Config_tail (j : Junos.t) (command : string) (commit : bool) (w : World) :
  let rest := fun (c : result string) =>
    match c with
    | Err err => ret (Some err)
    | Ok command =>
        r <- Exec (Junos.Session j) (netconf.RawRPC command) ;;
        match r with
        | Err err => ret (Some err)
        | Ok reply =>
            err <- (if commit then Commit j else ret None) ;;
            match err with
            | Some e => ret (Some e)
            | None =>
                match firstFault (netconf.Errors reply) with
                | Some m => ret (errors.New m)
                | None => ret None
                end
            end
        end
    end in
  hd_error (payloads w (snd (rest (Ok command) w))) = Some command.
Proof.
  intros rest. unfold rest, bind.
  pose proof (sent_Exec (Junos.Session j) (netconf.RawRPC command) w) as E.
  destruct (Exec _ _ w) as [[[rp|e]|n|p] w1]; simpl in E;
    try (erewrite payloads_app by exact E; reflexivity).
  destruct commit.
  - pose proof (sent_Commit j w1) as E2.
    destruct (Commit j w1) as [[[e|]|n|p] w2]; simpl in E2;
      try destruct (firstFault _);
      (erewrite payloads_app;
       [|simpl; rewrite E2, E, <- app_assoc; reflexivity]); reflexivity.
  - simpl. destruct (firstFault _);
      (erewrite payloads_app by exact E; reflexivity).
Qed.

(** C7: for every list of configuration lines given to [Config] with the
    syntax "set", the payload executed first is the set-syntax
    load-configuration element whose configuration-set child holds the
    lines as they are, joined with one newline between two consecutive
    lines; so for the two lines of the example. *)
Theorem Config_set_lines (j : Junos.t) (lines : list string) (commit : bool) (w : World) :
  hd_error (payloads w (snd (Config j (AStrings lines) "set" commit w)))
  = Some ("<load-configuration action=" ++ dq ++ "set" ++ dq ++ " format=" ++ dq ++ "text" ++ dq
          ++ "><configuration-set>" ++ joinLines lines
          ++ "</configuration-set></load-configuration>")
  /\ hd_error (payloads w (snd (Config j (AStrings ["set system host-name R1";
                                                     "set system domain-name example.com"])
                                       "set" commit w)))
     = Some ("<load-configuration action=" ++ dq ++ "set" ++ dq ++ " format=" ++ dq ++ "text" ++ dq
             ++ "><configuration-set>set system host-name R1" ++ nl
             ++ "set system domain-name example.com</configuration-set></load-configuration>").
Proof.
  assert (G : forall ls,
             hd_error (payloads w (snd (Config j (AStrings ls) "set" commit w)))
             = Some (fmt.Sprintf rpcConfigStringSet [AString (strings.Join ls nl)])).
  { intros ls. unfold Config. unfold bind at 1.
    cbn [String.eqb Ascii.eqb Bool.eqb loadCommand ret].
    apply (Config_tail j _ commit w). }
  split.
  - rewrite G, Join_joinLines. reflexivity.
  - rewrite G. reflexivity.
Qed.

Lemma plainReply_world r w : snd (plainReply r w) = w.
Proof.
  unfold plainReply. destruct r as [rp|e]; [|reflexivity].
  destruct (firstFault _); reflexivity.
Qed.

(** C9: for every action other than "delete", whatever it is, [Rescue]
    executes the save-rescue-configuration request and nothing else, and
    the call is the call with the action "save": no error comes from the
    action itself. *)
Theorem Rescue_not_delete (j : Junos.t) (action : string) (w : World) :
  action <> "delete" ->
  payloads w (snd (Rescue j action w)) = ["<request-save-rescue-configuration/>"]
  /\ Rescue j action w = Rescue j "save" w.
Proof.
  intros H. apply String.eqb_neq in H.
  unfold Rescue. rewrite H. cbn [String.eqb Ascii.eqb Bool.eqb].
  split; [|reflexivity].
  unfold bind.
  pose proof (sent_Exec (Junos.Session j) (netconf.RawRPC (fmt.Sprintf rpcRescueSave [])) w) as E.
  destruct (Exec _ _ w) as [[r|n|p] w1]; simpl in E;
    try rewrite plainReply_world; (apply payloads_app; exact E).
Qed.

(** C5: on a reply with no fault and empty data, [RunCommand] returns the
    diagnostic text as its output with a nil error, while
    [CommitHistory] returns no history and a non-nil error. *)
Theorem empty_data_results (j : Junos.t) (cmd format : string) (w : World)
        (errs : option (list netconf.RPCError)) (rest : list (result netconf.RPCReply)) :
  pending w = Ok (reply EmptyString errs) :: rest ->
  firstFault errs = None ->
  fst (RunCommand j cmd format w)
    = Ret ("No output available. Please check the syntax of your command.", None)
  /\ fst (CommitHistory j w) = Ret (None, Some "could not load commit history").
Proof.
  intros Hp Hf. unfold RunCommand, CommitHistory, bind, Exec.
  rewrite Hp. simpl. rewrite Hf. split; reflexivity.
Qed.

(** C8: when the reply to the file-list request decodes to a listing
    with a non-empty output field, [Files] returns no listing and the
    error "<path>: No such file or directory" for the path the caller
    gave. *)
Theorem Files_no_such_file (j : Junos.t) (path : string) (w : World)
        (data : string) (errs : option (list netconf.RPCError))
        (rest : list (result netconf.RPCReply)) (files : FileList.t) :
  pending w = Ok (reply data errs) :: rest ->
  firstFault errs = None ->
  data <> EmptyString ->
  xml.FileList (strings.Replace data nl EmptyString) = Ok files ->
  FileList.Error files <> EmptyString ->
  fst (Files j path w) = Ret (None, Some (path ++ ": No such file or directory")).
Proof.
  intros Hp Hf Hd Hx He. unfold Files, bind, Exec.
  rewrite Hp. simpl. rewrite Hf.
  apply String.eqb_neq in Hd. rewrite Hd, Hx.
  destruct (FileList.Error files) as [|c e]; [now elim He|]. reflexivity.
Qed.

Lemma genSplit_not_nil (s sep : string) (skip : nat) : strings.genSplit s sep skip <> [].
Proof.
  revert skip. induction s as [|c s IH]; intros skip; cbn [strings.genSplit];
    [discriminate|].
  destruct skip; [|apply IH].
  destruct (prefix sep (String c s)); [discriminate|].
  destruct (strings.genSplit s sep 0); discriminate.
Qed.

(** A loop whose body reads [secs[i]] at indices within range returns,
    and is the fold of its pure body. *)
Lemma foldM_index (secs : list string) (f : string -> string -> string)
      (idx : list nat) (command : string) (w : World) :
  Forall (fun i => (i < List.length secs)%nat) idx ->
  foldM (fun command i => sec <- index secs i ;; ret (f command sec)) idx command w
  = (Ret (fold_left (fun command i => f command (nth i secs EmptyString)) idx command), w).
Proof.
  revert command. induction idx as [|i idx IH]; intros command H; simpl; [reflexivity|].
  inversion H as [|? ? Hi Hrest]; subst.
  unfold bind at 1. unfold bind at 1. unfold index at 1.
  destruct (nth_error secs i) as [sec|] eqn:E.
  - apply nth_error_nth with (d := EmptyString) in E. subst sec.
    simpl. now rewrite IH.
  - apply nth_error_None in E. lia.
Qed.

Lemma getConfigCommand_returns (section format : string) (w : World) :
  getConfigCommand section format w = (Ret (getConfigPayload section format), w).
Proof.
  unfold getConfigCommand, getConfigPayload.
  destruct (String.eqb section "full"); [reflexivity|].
  pose proof (@genSplit_not_nil section ">" 0) as Hne.
  fold (strings.Split section ">") in Hne.
  set (secs := strings.Split section ">") in *.
  assert (Hlen : (1 <= List.length secs)%nat) by (destruct secs; [now elim Hne | simpl; lia]).
  replace (0 <=? Z.of_nat (List.length secs) - 1)%Z with true
    by (symmetry; apply Z.leb_le; lia).
  unfold upto, downfrom.
  replace (Z.to_nat (Z.of_nat (List.length secs) - 1)) with (List.length secs - 1)%nat by lia.
  set (n := (List.length secs - 1)%nat) in *.
  unfold bind at 1.
  rewrite (@foldM_index secs (fun command sec => command ++ fmt.Sprintf "<%s>" [AString sec]))
    by (apply Forall_forall; intros i Hi; apply in_seq in Hi; lia).
  unfold bind at 1. unfold index at 1.
  destruct (nth_error secs n) as [sec|] eqn:E;
    [|apply nth_error_None in E; lia].
  unfold bind at 1.
  rewrite (@foldM_index secs (fun command sec => command ++ fmt.Sprintf "</%s>" [AString sec]))
    by (apply Forall_forall; intros i Hi; apply in_rev in Hi; apply in_seq in Hi; lia).
  apply nth_error_nth with (d := EmptyString) in E. subst sec.
  reflexivity.
Qed.


Lemma Join_cons2 (sep c c' : string) (r : list string) :
  strings.Join (c :: c' :: r) sep = c ++ sep ++ strings.Join (c' :: r) sep.
Proof.
  unfold strings.Join. simpl.
  rewrite <- (append_assoc c sep c'), fold_left_join. apply append_assoc.
Qed.

Lemma prefix_empty (t : string) : prefix EmptyString t = true.
Proof. now destruct t. Qed.

Lemma genSplit_field (c t : string) :
  lacks ">" c = true ->
  strings.genSplit (c ++ ">" ++ t) ">" 0 = c :: strings.genSplit t ">" 0.
Proof.
  induction c as [|a c IH]; intros H.
  - simpl. now rewrite prefix_empty.
  - simpl in H. apply andb_true_iff in H. destruct H as [Ha Hc].
    apply negb_true_iff, Ascii.eqb_neq in Ha.
    change ((String a c) ++ ">" ++ t) with (String a (c ++ ">" ++ t)).
    cbn [strings.genSplit]. rewrite (IH Hc).
    cbn [prefix]. destruct (ascii_dec ">" a) as [E|_]; [now elim Ha|reflexivity].
Qed.

Lemma genSplit_last (c : string) :
  lacks ">" c = true -> strings.genSplit c ">" 0 = [c].
Proof.
  induction c as [|a c IH]; intros H; [reflexivity|].
  simpl in H. apply andb_true_iff in H. destruct H as [Ha Hc].
  apply negb_true_iff, Ascii.eqb_neq in Ha.
  cbn [strings.genSplit]. rewrite (IH Hc).
  cbn [prefix]. destruct (ascii_dec ">" a) as [E|_]; [now elim Ha|reflexivity].
Qed.

(** Splitting a joined path gives the components back. *)
Lemma Split_Join (comps : list string) :
  comps <> [] ->
  Forall (fun c => lacks ">" c = true) comps ->
  strings.Split (strings.Join comps ">") ">" = comps.
Proof.
  unfold strings.Split.
  induction comps as [|c comps IH]; intros Hne H; [now elim Hne|].
  inversion H as [|? ? Hc Hrest]; subst.
  destruct comps as [|c' r].
  - apply genSplit_last, Hc.
  - rewrite Join_cons2, genSplit_field by exact Hc. f_equal.
    apply IH; [discriminate | exact Hrest].
Qed.

Lemma fold_left_map_arg {A B C} (f : C -> B -> C) (g : A -> B) (l : list A) (c : C) :
  fold_left (fun c a => f c (g a)) l c = fold_left f (map g l) c.
Proof. revert c. induction l as [|a l IH]; intros c; simpl; [reflexivity | apply IH]. Qed.

Lemma map_nth_seq (l tail : list string) :
  map (fun i => nth i (l ++ tail)%list EmptyString) (seq 0 (List.length l)) = l.
Proof.
  induction l as [|a l IH]; [reflexivity|].
  cbn [List.length seq map]. rewrite <- seq_shift, map_map.
  cbn [nth app]. now rewrite IH.
Qed.

(** The two loops of [GetConfig] around the last component are the
    nesting of the spec. *)
Lemma loops_wrap (outer : list string) (command inner : string) :
  fold_left (fun command t => command ++ "</" ++ t ++ ">") (rev outer)
    (fold_left (fun command t => command ++ "<" ++ t ++ ">") outer command ++ inner)
  = command ++ wrap outer inner.
Proof.
  revert command. induction outer as [|t outer IH]; intros command; [reflexivity|].
  cbn [rev fold_left wrap]. rewrite fold_left_app. cbn [fold_left].
  rewrite IH. now rewrite !append_assoc.
Qed.

Lemma getConfigPayload_path (init : list string) (last format : string) :
  Forall (fun c => lacks ">" c = true) (init ++ [last])%list ->
  strings.Join (init ++ [last])%list ">" <> "full" ->
  getConfigPayload (strings.Join (init ++ [last])%list ">") format
  = "<get-configuration format=" ++ dq ++ format ++ dq ++ "><configuration>"
    ++ wrap init ("<" ++ last ++ "/>")
    ++ "</configuration></get-configuration>".
Proof.
  intros Hl Hf. unfold getConfigPayload.
  apply String.eqb_neq in Hf. rewrite Hf.
  rewrite Split_Join by (trivial; now destruct init).
  rewrite length_app. cbn [List.length].
  replace (List.length init + 1 - 1)%nat with (List.length init) by lia.
  rewrite (fold_left_map_arg (fun command t => command ++ "<" ++ t ++ ">")
             (fun i => nth i (init ++ [last])%list EmptyString)).
  rewrite (fold_left_map_arg (fun command t => command ++ "</" ++ t ++ ">")
             (fun i => nth i (init ++ [last])%list EmptyString)).
  rewrite map_rev, map_nth_seq, nth_middle, loops_wrap.
  now rewrite !append_assoc.
Qed.

Lemma sent_GetConfig (j : Junos.t) (section format : string) (w : World) :
  payloads w (snd (GetConfig j section format w)) = [getConfigPayload section format].
Proof.
  unfold GetConfig. unfold bind at 1. rewrite getConfigCommand_returns. unfold bind.
  pose proof (sent_Exec (Junos.Session j)
                (netconf.RawRPC (getConfigPayload section format)) w) as E.
  destruct (Exec _ _ w) as [[[rp|e]|n|p] w1]; simpl in E;
    try (apply payloads_app; exact E).
  destruct (firstFault _); [apply payloads_app; exact E|].
  destruct (String.eqb format "text"); [|apply payloads_app; exact E].
  destruct (xml.commandXML _); apply payloads_app; exact E.
Qed.

(** C6: [GetConfig] with the section "full" executes a request with an
    empty configuration element; with "system>login" it executes one
    with a self-closing login tag inside a system element; and with any
    path of components joined by ">" it nests the self-closing last
    component in one element for each component before it, closed in
    reverse order. *)
Theorem GetConfig_payload (j : Junos.t) (format : string) (w : World)
        (init : list string) (last : string) :
  Forall (fun c => lacks ">" c = true) (init ++ [last])%list ->
  strings.Join (init ++ [last])%list ">" <> "full" ->
  payloads w (snd (GetConfig j "full" format w))
  = ["<get-configuration format=" ++ dq ++ format ++ dq
     ++ "><configuration></configuration></get-configuration>"]
  /\ payloads w (snd (GetConfig j "system>login" format w))
     = ["<get-configuration format=" ++ dq ++ format ++ dq
        ++ "><configuration><system><login/></system></configuration></get-configuration>"]
  /\ payloads w (snd (GetConfig j (strings.Join (init ++ [last])%list ">") format w))
     = ["<get-configuration format=" ++ dq ++ format ++ dq ++ "><configuration>"
        ++ wrap init ("<" ++ last ++ "/>")
        ++ "</configuration></get-configuration>"].
Proof.
  intros Hl Hf. rewrite !sent_GetConfig. repeat apply conj.
  - unfold getConfigPayload. cbn [String.eqb Ascii.eqb Bool.eqb].
    now rewrite !append_assoc.
  - change "system>login" with (strings.Join (["system"] ++ ["login"])%list ">").
    rewrite getConfigPayload_path; [reflexivity | | discriminate].
    repeat constructor.
  - now rewrite getConfigPayload_path.
Qed.
Lemma loadCommand_string (rpcURL rpcText : string) (p command : string) (w : World) :
  loadCommand rpcURL rpcText rpcText (AString p) command w
  = (Ret (Ok (fmt.Sprintf rpcText [AString (loadedText w p)])), w).
Proof.
  unfold loadCommand, loadedText, bind, ReadFile.
  destruct (files w p) as [data|msg] eqn:E; [rewrite E|]; reflexivity.
Qed.

(** C4: for a string that contains "tp://", and each of the three
    syntaxes, the payload [Config] executes first carries the content of
    the local file of that name, or else the string itself, as literal
    configuration; it is not the request with the url attribute. *)
Theorem Config_url_overwritten (j : Junos.t) (p : string) (commit : bool) (w : World) :
  strings.Contains p "tp://" = true ->
  (hd_error (payloads w (snd (Config j (AString p) "set" commit w)))
   = Some ("<load-configuration action=" ++ dq ++ "set" ++ dq ++ " format=" ++ dq ++ "text" ++ dq
           ++ "><configuration-set>" ++ loadedText w p
           ++ "</configuration-set></load-configuration>")
   /\ hd_error (payloads w (snd (Config j (AString p) "set" commit w)))
      <> Some ("<load-configuration action=" ++ dq ++ "set" ++ dq ++ " format=" ++ dq ++ "text"
               ++ dq ++ " url=" ++ dq ++ p ++ dq ++ "/>"))
  /\ (hd_error (payloads w (snd (Config j (AString p) "text" commit w)))
      = Some ("<load-configuration format=" ++ dq ++ "text" ++ dq
              ++ "><configuration-text>" ++ loadedText w p
              ++ "</configuration-text></load-configuration>")
      /\ hd_error (payloads w (snd (Config j (AString p) "text" commit w)))
         <> Some ("<load-configuration format=" ++ dq ++ "text" ++ dq
                  ++ " url=" ++ dq ++ p ++ dq ++ "/>"))
  /\ (hd_error (payloads w (snd (Config j (AString p) "xml" commit w)))
      = Some ("<load-configuration format=" ++ dq ++ "xml" ++ dq
              ++ "><configuration>" ++ loadedText w p
              ++ "</configuration></load-configuration>")
      /\ hd_error (payloads w (snd (Config j (AString p) "xml" commit w)))
         <> Some ("<load-configuration format=" ++ dq ++ "xml" ++ dq
                  ++ " url=" ++ dq ++ p ++ dq ++ "/>")).
Proof.
  intros _.
  assert (S : forall f u t,
             (if String.eqb f "set"
              then loadCommand rpcConfigURLSet rpcConfigStringSet rpcConfigFileSet (AString p) EmptyString
              else if String.eqb f "text"
              then loadCommand rpcConfigURLText rpcConfigStringText rpcConfigFileText (AString p) EmptyString
              else if String.eqb f "xml"
              then loadCommand rpcConfigURLXML rpcConfigStringXML rpcConfigFileXML (AString p) EmptyString
              else ret (Ok EmptyString)) = loadCommand u t t (AString p) EmptyString ->
             hd_error (payloads w (snd (Config j (AString p) f commit w)))
             = Some (fmt.Sprintf t [AString (loadedText w p)])).
  { intros f u t E. unfold Config. rewrite E. unfold bind at 1.
    rewrite loadCommand_string. apply Config_tail. }
  repeat apply conj.
  - rewrite (S "set" rpcConfigURLSet rpcConfigStringSet) by reflexivity. reflexivity.
  - rewrite (S "set" rpcConfigURLSet rpcConfigStringSet) by reflexivity. discriminate.
  - rewrite (S "text" rpcConfigURLText rpcConfigStringText) by reflexivity. reflexivity.
  - rewrite (S "text" rpcConfigURLText rpcConfigStringText) by reflexivity. discriminate.
  - rewrite (S "xml" rpcConfigURLXML rpcConfigStringXML) by reflexivity. reflexivity.
  - rewrite (S "xml" rpcConfigURLXML rpcConfigStringXML) by reflexivity. discriminate.
Qed.

End Gateway.

(* ================================================================== *)
(** * Properties of the resolver *)
(* ================================================================== *)

Section Resolver.
Context {decoder : xml.Unmarshal}.

Lemma engineFacts_ret (re : versionRouteEngine.t) (w w' : World) (e : RoutingEngine.t) :
  engineFacts re w = (Ret e, w') -> w' = w /\ factsOf re e.
Proof.
  unfold engineFacts, bind, index.
  destruct (nth_error (versionRouteEngine.PackageInfo re) 0) as [info|] eqn:I;
    [|discriminate].
  destruct (nth_error (versionPackageInfo.SoftwareVersion info) 0) as [comment|] eqn:C;
    [|discriminate].
  destruct (nth_error (regexp.FindStringSubmatch rex comment) 1) as [v|] eqn:V;
    [|discriminate].
  unfold ret. intros H. inversion H; subst. split; [reflexivity|].
  split; [reflexivity|]. exists info, comment. repeat apply conj; assumption.
Qed.

Lemma skipn_nth_error {A} (l : list A) (a : nat) (x : A) :
  nth_error l a = Some x -> skipn a l = x :: skipn (S a) l.
Proof.
  revert l. induction a as [|a IH]; intros [|y l] H; try discriminate.
  - now inversion H.
  - change (skipn a l = x :: skipn (S a) l). apply IH, H.
Qed.

(** The loop over the engines appends, for each index in turn, the
    facts of the engine at that index. *)
Lemma engines_loop (REs : list versionRouteEngine.t) (n a : nat)
      (res0 res : list RoutingEngine.t) (w w' : World) :
  foldM (fun res i =>
           re <- index REs i ;;
           e <- engineFacts re ;;
           ret (res ++ [e])%list)
        (seq a n) res0 w = (Ret res, w') ->
  w' = w
  /\ exists es, res = (res0 ++ es)%list /\ Forall2 factsOf (firstn n (skipn a REs)) es.
Proof.
  revert a res0. induction n as [|n IH]; intros a res0 H.
  - simpl in H. inversion H; subst. split; [reflexivity|].
    exists []. rewrite app_nil_r. split; [reflexivity | constructor].
  - cbn [seq foldM] in H. unfold bind at 1 2 in H. unfold index at 1 in H.
    destruct (nth_error REs a) as [re|] eqn:E; [|discriminate].
    unfold bind at 1 in H.
    destruct (engineFacts re w) as [[e|k|p] w1] eqn:F; try discriminate.
    apply engineFacts_ret in F. destruct F as [-> F].
    unfold ret at 1 in H.
    apply IH in H. destruct H as [-> [es [-> Hes]]].
    split; [reflexivity|]. exists (e :: es). split.
    + now rewrite <- app_assoc.
    + rewrite (skipn_nth_error _ _ _ E). cbn [firstn]. now constructor.
Qed.

(** C2: whenever [NewSession] returns a session, its number of routing
    engines is the length of its platform list; behind a multi-engine
    container that number is the number of engines decoded and the list
    holds their facts in the order decoded, and otherwise the number is
    1 and the list holds the facts of the one engine. *)
Theorem NewSession_engines (host user password : string) (w : World)
        (j : Junos.t) (err : error) :
  fst (NewSession host user password w) = Ret (Some j, err) ->
  Junos.RoutingEngines j = Z.of_nat (List.length (Junos.Platform j))
  /\ exists data errs rest,
      pending w = Ok (reply data errs) :: rest
      /\ if strings.Contains data "multi-routing-engine-results"
         then exists facts,
             xml.versionRouteEngines data = Ok facts
             /\ Junos.RoutingEngines j = Z.of_nat (List.length (versionRouteEngines.RE facts))
             /\ Forall2 factsOf (versionRouteEngines.RE facts) (Junos.Platform j)
         else exists facts,
             xml.versionRouteEngine data = Ok facts
             /\ Junos.RoutingEngines j = 1%Z
             /\ Forall2 factsOf [facts] (Junos.Platform j).
Proof.
  unfold NewSession. unfold bind at 1 2. unfold DialSSH.
  destruct (dial w host user password) as [msg|]; [discriminate|].
  unfold ret at 1. unfold bind at 1. unfold Exec.
  destruct (pending w) as [|[[data errs]|msg] rest]; try discriminate.
  cbn [netconf.Errors netconf.Data].
  destruct (firstFault errs); [discriminate|].
  set (w1 := Build_World _ _ _ _ _).
  destruct (strings.Contains data "multi-routing-engine-results") eqn:C.
  - destruct (xml.versionRouteEngines data) as [facts|msg] eqn:X; [|discriminate].
    unfold bind at 1. unfold index at 1.
    destruct (nth_error (versionRouteEngines.RE facts) 0) as [re0|]; [|discriminate].
    unfold bind at 1. unfold upto. rewrite Nat2Z.id.
    destruct (foldM _ _ _ w1) as [[res|k|p] w2] eqn:L; try discriminate.
    apply engines_loop in L. destruct L as [-> [es [-> Hes]]].
    rewrite skipn_O, firstn_all in Hes.
    unfold ret. cbn [fst app]. intros H. injection H as Hj _. subst j.
    cbn [Junos.RoutingEngines Junos.Platform].
    split; [now rewrite (Forall2_length Hes)|].
    exists data, errs, rest. split; [reflexivity|]. rewrite C.
    exists facts. repeat apply conj; try reflexivity; assumption.
  - destruct (xml.versionRouteEngine data) as [facts|msg] eqn:X; [|discriminate].
    unfold bind at 1.
    destruct (engineFacts facts w1) as [[e|k|p] w2] eqn:F; try discriminate.
    apply engineFacts_ret in F. destruct F as [-> F].
    unfold ret. cbn [fst app]. intros H. injection H as Hj _. subst j.
    cbn [Junos.RoutingEngines Junos.Platform].
    split; [reflexivity|].
    exists data, errs, rest. split; [reflexivity|]. rewrite C.
    exists facts. repeat apply conj; try reflexivity; try assumption.
    constructor; [exact F | constructor].
Qed.

(** C1: a single-engine reply with host name "r1", model "mx960" and a
    first package comment whose last bracketed token, on its first line,
    is "[20.4R3.8]" makes [NewSession] return the session with host name
    "r1", one routing engine, and the platform list of the one entry
    with model "MX960" and version "20.4R3.8". *)
Theorem NewSession_single_engine (host user password : string) (w : World)
        (data : string) (errs : option (list netconf.RPCError))
        (rest : list (result netconf.RPCReply))
        (pre post : string) (names comments : list string)
        (infos : list versionPackageInfo.t) :
  dial w host user password = None ->
  pending w = Ok (reply data errs) :: rest ->
  firstFault errs = None ->
  strings.Contains data "multi-routing-engine-results" = false ->
  xml.versionRouteEngine data
  = Ok {| versionRouteEngine.Hostname := "r1";
          versionRouteEngine.Platform := "mx960";
          versionRouteEngine.PackageInfo :=
            {| versionPackageInfo.PackageName := names;
               versionPackageInfo.SoftwareVersion :=
                 (pre ++ "[20.4R3.8]" ++ post) :: comments |} :: infos |} ->
  lacks LF pre = true ->
  lacks "]" post = true ->
  fst (NewSession host user password w)
  = Ret (Some {| Junos.Session := netconf.SSH host;
                 Junos.Hostname := "r1";
                 Junos.RoutingEngines := 1;
                 Junos.Platform := [{| RoutingEngine.Model := "MX960";
                                       RoutingEngine.Version := "20.4R3.8" |}] |},
         None).
Proof.
  intros Hd Hp Hf Hc Hx Hpre Hpost.
  unfold NewSession. unfold bind at 1 2. unfold DialSSH. rewrite Hd.
  unfold ret at 1. unfold bind at 1. unfold Exec. rewrite Hp.
  cbn [reply netconf.Errors netconf.Data]. rewrite Hf, Hc, Hx.
  unfold bind at 1. unfold engineFacts. unfold bind, index.
  cbn [nth_error versionRouteEngine.PackageInfo versionPackageInfo.SoftwareVersion
       versionRouteEngine.Platform versionRouteEngine.Hostname].
  change (pre ++ "[20.4R3.8]" ++ post) with (pre ++ "[" ++ "20.4R3.8" ++ "]" ++ post).
  rewrite rex_submatch by (assumption || reflexivity).
  reflexivity.
Qed.

(** C3: what [NewSession] does when the dial fails.  It does not return
    the failure to its caller: the failure is written to the logger and
    the process exits with status 1, before any request is executed. *)
Theorem NewSession_dial_failure_exits (host user password : string) (w : World)
        (msg : string) :
  dial w host user password = Some msg ->
  NewSession host user password w = (Exit 1, logging w msg).
Proof.
  intros Hd. unfold NewSession. unfold bind at 1 2. unfold DialSSH. now rewrite Hd.
Qed.

End Resolver.


(* ================================================================== *)
(** * The theorems at work on the fixture device *)
(* ================================================================== *)

(** The single-engine fixture resolves to the session of the spec. *)
Lemma NewSession_single_engine_fixture :
  fst (@NewSession fixtureDecoder "r1" "admin" "secret"
         (fixtureWorld [Ok (reply "<software-information/>" None)]))
  = Ret (Some fixtureSession, None).
Proof.
  apply (@NewSession_single_engine fixtureDecoder "r1" "admin" "secret"
           (fixtureWorld [Ok (reply "<software-information/>" None)])
           "<software-information/>" None [] "JUNOS Base OS boot " EmptyString
           ["junos"] [] []);
    reflexivity.
Defined.

(** The two-member fixture resolves to two engines, in order. *)
Lemma NewSession_engines_fixture :
  Junos.RoutingEngines fixtureStack = Z.of_nat (List.length (Junos.Platform fixtureStack))
  /\ exists data errs rest,
      pending (fixtureWorld [Ok (reply "<multi-routing-engine-results/>" None)])
      = Ok (reply data errs) :: rest
      /\ if strings.Contains data "multi-routing-engine-results"
         then exists facts,
             @xml.versionRouteEngines fixtureDecoder data = Ok facts
             /\ Junos.RoutingEngines fixtureStack
                = Z.of_nat (List.length (versionRouteEngines.RE facts))
             /\ Forall2 factsOf (versionRouteEngines.RE facts) (Junos.Platform fixtureStack)
         else exists facts,
             @xml.versionRouteEngine fixtureDecoder data = Ok facts
             /\ Junos.RoutingEngines fixtureStack = 1%Z
             /\ Forall2 factsOf [facts] (Junos.Platform fixtureStack).
Proof.
  apply (@NewSession_engines fixtureDecoder "sw1" "admin" "secret"
           (fixtureWorld [Ok (reply "<multi-routing-engine-results/>" None)])
           fixtureStack None).
  reflexivity.
Defined.

(** A refused password: the call does not return, the process exits. *)
Lemma NewSession_dial_failure_not_returned :
  dial (fixtureWorld []) "r1" "admin" "guess"
  = Some "ssh: handshake failed: unable to authenticate"
  /\ fst (@NewSession fixtureDecoder "r1" "admin" "guess" (fixtureWorld [])) = Exit 1
  /\ fst (@NewSession fixtureDecoder "r1" "admin" "guess" (fixtureWorld []))
     <> Ret (None, Some "ssh: handshake failed: unable to authenticate").
Proof.
  repeat apply conj; [reflexivity | reflexivity | discriminate].
Qed.

Lemma NewSession_dial_failure_exits_fixture :
  @NewSession fixtureDecoder "r1" "admin" "guess" (fixtureWorld [])
  = (Exit 1,
     logging (fixtureWorld []) "ssh: handshake failed: unable to authenticate").
Proof.
  apply (@NewSession_dial_failure_exits fixtureDecoder "r1" "admin" "guess"
           (fixtureWorld []) "ssh: handshake failed: unable to authenticate").
  reflexivity.
Defined.

(** A remote URL given to [Config]: it goes out as configuration text. *)
Lemma Config_url_overwritten_fixture :
  hd_error (payloads (fixtureWorld [])
              (snd (@Config fixtureDecoder fixtureSession
                      (AString "ftp://192.0.2.10/junos.set") "set" false (fixtureWorld []))))
  = Some ("<load-configuration action=" ++ dq ++ "set" ++ dq ++ " format=" ++ dq ++ "text" ++ dq
          ++ "><configuration-set>ftp://192.0.2.10/junos.set"
          ++ "</configuration-set></load-configuration>").
Proof.
  apply (@Config_url_overwritten fixtureDecoder fixtureSession
           "ftp://192.0.2.10/junos.set" false (fixtureWorld [])).
  reflexivity.
Defined.

(** An empty reply to a command and to the history request. *)
Lemma empty_data_results_fixture :
  fst (@RunCommand fixtureDecoder fixtureSession "show version" "text"
         (fixtureWorld [Ok (reply EmptyString None)]))
  = Ret ("No output available. Please check the syntax of your command.", None)
  /\ fst (@CommitHistory fixtureDecoder fixtureSession
            (fixtureWorld [Ok (reply EmptyString None)]))
     = Ret (None, Some "could not load commit history").
Proof.
  apply (@empty_data_results fixtureDecoder fixtureSession "show version" "text"
           (fixtureWorld [Ok (reply EmptyString None)]) None []);
    reflexivity.
Defined.

(** A three-level section path. *)
Lemma GetConfig_payload_fixture :
  payloads (fixtureWorld [])
    (snd (@GetConfig fixtureDecoder fixtureSession "protocols>ospf>area" "xml"
            (fixtureWorld [])))
  = ["<get-configuration format=" ++ dq ++ "xml" ++ dq ++ "><configuration>"
     ++ "<protocols><ospf><area/></ospf></protocols>"
     ++ "</configuration></get-configuration>"].
Proof.
  apply (@GetConfig_payload fixtureDecoder fixtureSession "xml" (fixtureWorld [])
           ["protocols"; "ospf"] "area").
  - repeat constructor.
  - discriminate.
Defined.

(** A listing of a directory that does not exist. *)
Lemma Files_no_such_file_fixture :
  fst (@Files fixtureDecoder fixtureSession "/var/nothing"
         (fixtureWorld
            [Ok (reply "<directory-list><output>/var/nothing/: No such file or directory</output></directory-list>"
                       None)]))
  = Ret (None, Some "/var/nothing: No such file or directory").
Proof.
  apply (@Files_no_such_file fixtureDecoder fixtureSession "/var/nothing"
           (fixtureWorld
              [Ok (reply "<directory-list><output>/var/nothing/: No such file or directory</output></directory-list>"
                         None)])
           "<directory-list><output>/var/nothing/: No such file or directory</output></directory-list>"
           None []
           {| FileList.Path := EmptyString; FileList.Total := EmptyString;
              FileList.Files := []; FileList.Error := "No such file or directory" |});
    try reflexivity; discriminate.
Defined.

(** A misspelt action saves the rescue configuration. *)
Lemma Rescue_not_delete_fixture :
  payloads (fixtureWorld [])
    (snd (Rescue fixtureSession "remove" (fixtureWorld [])))
  = ["<request-save-rescue-configuration/>"]
  /\ Rescue fixtureSession "remove" (fixtureWorld [])
     = Rescue fixtureSession "save" (fixtureWorld []).
Proof.
  apply (Rescue_not_delete fixtureSession "remove" (fixtureWorld [])).
  discriminate.
Defined.

(* ================================================================== *)
(** * More properties of the gateway *)
(* ================================================================== *)

(** Runs a function on a world whose first answer is given. *)
Ltac known_answer :=
  unfold bind, Exec, faulting, failing, answering; simpl; reflexivity.

Section GatewayMore.
Context {decoder : xml.Unmarshal}.

(** The payload stage of [Config] returns a payload: the second read of
    a file answers as the first. *)
Lemma loadCommand_ok (rpcURL rpcString rpcFile : string) (path : any)
      (command : string) (w : World) :
  exists c, loadCommand rpcURL rpcString rpcFile path command w = (Ret (Ok c), w).
Proof.
  unfold loadCommand, bind, ReadFile. destruct path as [p|l|z].
  - destruct (files w p) as [data|msg] eqn:E; [rewrite E|]; eexists; reflexivity.
  - eexists; reflexivity.
  - eexists; reflexivity.
Qed.

Lemma configCommand_ok (path : any) (format : string) (w : World) :
  exists c, configCommand path format w = (Ret (Ok c), w).
Proof.
  unfold configCommand.
  destruct (String.eqb format "set"); [apply loadCommand_ok|].
  destruct (String.eqb format "text"); [apply loadCommand_ok|].
  destruct (String.eqb format "xml"); [apply loadCommand_ok|].
  eexists; reflexivity.
Qed.

Lemma Config_unfold (j : Junos.t) (path : any) (format : string) (commit : bool)
      (w : World) (c : string) :
  configCommand path format w = (Ret (Ok c), w) ->
  Config j path format commit w
  = (r <- Exec (Junos.Session j) (netconf.RawRPC c) ;;
     match r with
     | Err err => ret (Some err)
     | Ok reply =>
         err <- (if commit then Commit j else ret None) ;;
         match err with
         | Some e => ret (Some e)
         | None =>
             match firstFault (netconf.Errors reply) with
             | Some m => ret (errors.New m)
             | None => ret None
             end
         end
     end) w.
Proof.
  intros E. unfold Config. unfold bind at 1. fold (configCommand path format).
  now rewrite E.
Qed.

(** X1: when the reply carries faults, every function that makes one
    request returns the message of the first fault as its error,
    whatever the other faults and the data are ([Config] when it is not
    asked to commit). *)
Theorem first_fault_is_the_error (j : Junos.t) (w : World) (data : string)
        (m : netconf.RPCError) (ms : list netconf.RPCError) :
  (forall cmd format,
      fst (RunCommand j cmd format (faulting w data m ms))
      = Ret ("No output available. Please check the syntax of your command.",
             Some (netconf.Message m)))
  /\ fst (CommitHistory j (faulting w data m ms)) = Ret (None, Some (netconf.Message m))
  /\ fst (Commit j (faulting w data m ms)) = Ret (Some (netconf.Message m))
  /\ (forall time,
         fst (CommitAt j time (faulting w data m ms)) = Ret (Some (netconf.Message m)))
  /\ fst (CommitCheck j (faulting w data m ms)) = Ret (Some (netconf.Message m))
  /\ (forall delay,
         fst (CommitConfirm j delay (faulting w data m ms)) = Ret (Some (netconf.Message m)))
  /\ (forall compare,
         fst (ConfigDiff j compare (faulting w data m ms))
         = Ret (EmptyString, Some (netconf.Message m)))
  /\ (forall section format,
         fst (GetConfig j section format (faulting w data m ms))
         = Ret (EmptyString, Some (netconf.Message m)))
  /\ (forall path format,
         fst (Config j path format false (faulting w data m ms))
         = Ret (Some (netconf.Message m)))
  /\ fst (Lock j (faulting w data m ms)) = Ret (Some (netconf.Message m))
  /\ (forall action,
         fst (Rescue j action (faulting w data m ms)) = Ret (Some (netconf.Message m)))
  /\ fst (Unlock j (faulting w data m ms)) = Ret (Some (netconf.Message m))
  /\ fst (Reboot j (faulting w data m ms)) = Ret (Some (netconf.Message m))
  /\ (forall path,
         fst (Files j path (faulting w data m ms)) = Ret (None, Some (netconf.Message m))).
Proof.
  repeat apply conj; intros.
  - unfold RunCommand. known_answer.
  - unfold CommitHistory. known_answer.
  - unfold Commit. known_answer.
  - unfold CommitAt. known_answer.
  - unfold CommitCheck. known_answer.
  - unfold CommitConfirm. known_answer.
  - unfold ConfigDiff. known_answer.
  - unfold GetConfig. unfold bind at 1. rewrite getConfigCommand_returns. known_answer.
  - destruct (configCommand_ok path format (faulting w data m ms)) as [c E].
    rewrite (Config_unfold j path format false _ c E). known_answer.
  - unfold Lock. known_answer.
  - unfold Rescue. known_answer.
  - unfold Unlock. known_answer.
  - unfold Reboot. known_answer.
  - unfold Files. known_answer.
Qed.

(** X2: when the request fails in the transport, every function returns
    that failure as its error, and [Config] and [RollbackConfig] execute
    no commit after it. *)
Theorem transport_failure_is_returned (j : Junos.t) (w : World) (msg : string) :
  (forall cmd format,
      fst (RunCommand j cmd format (failing w msg))
      = Ret ("No output available. Please check the syntax of your command.", Some msg))
  /\ fst (CommitHistory j (failing w msg)) = Ret (None, Some msg)
  /\ fst (Commit j (failing w msg)) = Ret (Some msg)
  /\ (forall time, fst (CommitAt j time (failing w msg)) = Ret (Some msg))
  /\ fst (CommitCheck j (failing w msg)) = Ret (Some msg)
  /\ (forall delay, fst (CommitConfirm j delay (failing w msg)) = Ret (Some msg))
  /\ (forall compare,
         fst (ConfigDiff j compare (failing w msg)) = Ret (EmptyString, Some msg))
  /\ (forall section format,
         fst (GetConfig j section format (failing w msg)) = Ret (EmptyString, Some msg))
  /\ (forall path format commit,
         fst (Config j path format commit (failing w msg)) = Ret (Some msg)
         /\ List.length (payloads (failing w msg)
                           (snd (Config j path format commit (failing w msg)))) = 1%nat)
  /\ fst (Lock j (failing w msg)) = Ret (Some msg)
  /\ (forall action, fst (Rescue j action (failing w msg)) = Ret (Some msg))
  /\ (forall option,
         fst (RollbackConfig j option (failing w msg)) = Ret (Some msg)
         /\ List.length (payloads (failing w msg)
                           (snd (RollbackConfig j option (failing w msg)))) = 1%nat)
  /\ fst (Unlock j (failing w msg)) = Ret (Some msg)
  /\ fst (Reboot j (failing w msg)) = Ret (Some msg)
  /\ (forall path, fst (Files j path (failing w msg)) = Ret (None, Some msg)).
Proof.
  repeat apply conj; intros; repeat apply conj.
  - unfold RunCommand. known_answer.
  - unfold CommitHistory. known_answer.
  - unfold Commit. known_answer.
  - unfold CommitAt. known_answer.
  - unfold CommitCheck. known_answer.
  - unfold CommitConfirm. known_answer.
  - unfold ConfigDiff. known_answer.
  - unfold GetConfig. unfold bind at 1. rewrite getConfigCommand_returns. known_answer.
  - destruct (configCommand_ok path format (failing w msg)) as [c E].
    rewrite (Config_unfold j path format commit _ c E). known_answer.
  - destruct (configCommand_ok path format (failing w msg)) as [c E].
    rewrite (Config_unfold j path format commit _ c E).
    unfold payloads, bind, Exec, failing, answering. simpl.
    rewrite skipn_app, skipn_all, Nat.sub_diag. reflexivity.
  - unfold Lock. known_answer.
  - unfold Rescue. known_answer.
  - unfold RollbackConfig. known_answer.
  - unfold RollbackConfig.
    unfold payloads, bind, Exec, failing, answering. simpl.
    rewrite skipn_app, skipn_all, Nat.sub_diag. reflexivity.
  - unfold Unlock. known_answer.
  - unfold Reboot. known_answer.
  - unfold Files. known_answer.
Qed.

Lemma one_payload {A} (s : netconf.Session) (c : string) (k : result netconf.RPCReply -> M A)
      (w : World) :
  (forall r w', snd (k r w') = w') ->
  payloads w (snd ((r <- Exec s c ;; k r) w)) = [c].
Proof.
  intros Hk. unfold bind.
  pose proof (sent_Exec s c w) as E.
  destruct (Exec s c w) as [[r|n|p] w1]; simpl in E; simpl;
    try rewrite Hk; apply payloads_app; exact E.
Qed.

Lemma sent_Files (j : Junos.t) (path : string) (w : World) :
  payloads w (snd (Files j path w))
  = ["<file-list><detail/><path>" ++ strings.TrimRight path "/" ++ "/"
     ++ "</path></file-list>"].
Proof.
  unfold Files.
  replace ("<file-list><detail/><path>" ++ strings.TrimRight path "/" ++ "/"
           ++ "</path></file-list>")
    with (netconf.RawRPC (fmt.Sprintf rpcFileList [AString (strings.TrimRight path "/" ++ "/")]))
    by (unfold netconf.RawRPC; simpl; now rewrite append_assoc).
  apply (one_payload (A := option FileList.t * error)).
  intros r w'. destruct r as [rp|e]; [|reflexivity].
  destruct (firstFault _); [reflexivity|].
  destruct (String.eqb (netconf.Data rp) EmptyString); [reflexivity|].
  destruct (xml.FileList _) as [fl|e]; [|reflexivity].
  destruct (Nat.ltb _ _); reflexivity.
Qed.

(** X3: each of these functions executes one request, of this form,
    whatever the device answers: there is no second request and no
    retry. *)
Theorem one_request_per_call (j : Junos.t) (w : World) :
  (forall cmd format,
      payloads w (snd (RunCommand j cmd format w))
      = [if String.eqb format "xml"
         then "<command format=" ++ dq ++ "xml" ++ dq ++ ">" ++ cmd ++ "</command>"
         else "<command format=" ++ dq ++ "text" ++ dq ++ ">" ++ cmd ++ "</command>"])
  /\ payloads w (snd (CommitHistory j w)) = ["<get-commit-information/>"]
  /\ payloads w (snd (Commit j w)) = ["<commit-configuration/>"]
  /\ (forall time,
         payloads w (snd (CommitAt j time w))
         = ["<commit-configuration><at-time>" ++ time
            ++ "</at-time></commit-configuration>"])
  /\ payloads w (snd (CommitCheck j w))
     = ["<commit-configuration><check/></commit-configuration>"]
  /\ (forall delay,
         payloads w (snd (CommitConfirm j delay w))
         = ["<commit-configuration><confirmed/><confirm-timeout>" ++ fmt.itoa delay
            ++ "</confirm-timeout></commit-configuration>"])
  /\ (forall compare,
         payloads w (snd (ConfigDiff j compare w))
         = ["<get-rollback-information><rollback>0</rollback><compare>" ++ fmt.itoa compare
            ++ "</compare><format>text</format></get-rollback-information>"])
  /\ payloads w (snd (Lock j w)) = ["<lock><target><candidate/></target></lock>"]
  /\ payloads w (snd (Unlock j w)) = ["<unlock><target><candidate/></target></unlock>"]
  /\ payloads w (snd (Reboot j w)) = ["<request-reboot/>"]
  /\ (forall action,
         payloads w (snd (Rescue j action w))
         = [if String.eqb action "delete" then "<request-delete-rescue-configuration/>"
            else "<request-save-rescue-configuration/>"])
  /\ (forall path,
         payloads w (snd (Files j path w))
         = ["<file-list><detail/><path>" ++ strings.TrimRight path "/" ++ "/"
            ++ "</path></file-list>"]).
Proof.
  repeat apply conj; intros.
  - unfold RunCommand. destruct (String.eqb format "xml");
      (apply (one_payload (A := string * error)); intros r w';
       destruct r as [rp|e]; [|reflexivity];
       destruct (firstFault _); [reflexivity|];
       destruct (String.eqb (netconf.Data rp) EmptyString); [reflexivity|];
       destruct (String.eqb format "text"); [|reflexivity];
       destruct (xml.commandXML _); reflexivity).
  - unfold CommitHistory. apply (one_payload (A := option CommitHistory.t * error)).
    intros r w'. destruct r as [rp|e]; [|reflexivity].
    destruct (firstFault _); [reflexivity|].
    destruct (String.eqb (netconf.Data rp) EmptyString); [reflexivity|].
    destruct (xml.CommitHistory _); reflexivity.
  - unfold Commit. apply one_payload. apply commitReply_world.
  - unfold CommitAt. apply (one_payload (A := error)). apply commitReply_world.
  - unfold CommitCheck. apply one_payload. apply commitReply_world.
  - unfold CommitConfirm. apply (one_payload (A := error)). apply commitReply_world.
  - unfold ConfigDiff. apply (one_payload (A := string * error)).
    intros r w'. destruct r as [rp|e]; [|reflexivity].
    destruct (firstFault _); [reflexivity|].
    destruct (xml.diffXML _); reflexivity.
  - unfold Lock. apply one_payload. apply plainReply_world.
  - unfold Unlock. apply one_payload. apply plainReply_world.
  - unfold Reboot. apply one_payload. apply plainReply_world.
  - unfold Rescue. destruct (String.eqb action "delete");
      apply one_payload; apply plainReply_world.
  - apply sent_Files.
Qed.

(** Two requests in a row: both payloads, in order. *)
Lemma sent_Exec_Commit (j : Junos.t) (c : string) (w : World) (r : netconf.RPCReply)
      (w1 : World) :
  Exec (Junos.Session j) c w = (Ret (Ok r), w1) ->
  payloads w (snd (Commit j w1)) = [c; rpcCommit].
Proof.
  intros E. pose proof (sent_Exec (Junos.Session j) c w) as S1. rewrite E in S1.
  simpl in S1. apply payloads_app. rewrite sent_Commit, S1, <- app_assoc. reflexivity.
Qed.

(** X4: [Config] with the commit flag looks at the faults of the load
    only after the commit: a load whose reply carries a fault is
    committed all the same, and when the commit succeeds the fault of
    the load is the error returned. *)
Theorem Config_commits_before_fault (j : Junos.t) (path : any) (format : string)
        (w : World) (data : string) (m : netconf.RPCError) (ms : list netconf.RPCError)
        (data2 : string) (errs2 : option (list netconf.RPCError))
        (rest : list (result netconf.RPCReply)) :
  pending w = Ok (reply data2 errs2) :: rest ->
  firstFault errs2 = None ->
  xml.commitResults data2 = Ok {| commitResults.Errors := None |} ->
  (exists c,
      payloads (faulting w data m ms) (snd (Config j path format true (faulting w data m ms)))
      = [c; "<commit-configuration/>"])
  /\ fst (Config j path format true (faulting w data m ms))
     = Ret (Some (netconf.Message m)).
Proof.
  intros Hp Hf Hx.
  destruct (configCommand_ok path format (faulting w data m ms)) as [c E].
  rewrite (Config_unfold j path format true _ c E).
  unfold faulting, answering, payloads, bind, Exec, Commit, commitReply. simpl.
  unfold bind, Exec. simpl. rewrite Hp. simpl. rewrite Hf, Hx. simpl.
  split; [exists c|reflexivity].
  rewrite <- app_assoc, skipn_app, skipn_all, Nat.sub_diag. reflexivity.
Qed.

(** X5: when the commit that [Config] runs fails, its error is returned
    and the fault of the load is not reported. *)
Theorem Config_commit_failure_hides_fault (j : Junos.t) (path : any) (format : string)
        (w : World) (data : string) (m : netconf.RPCError) (ms : list netconf.RPCError)
        (msg : string) (rest : list (result netconf.RPCReply)) :
  pending w = Err msg :: rest ->
  fst (Config j path format true (faulting w data m ms)) = Ret (Some msg).
Proof.
  intros Hp.
  destruct (configCommand_ok path format (faulting w data m ms)) as [c E].
  rewrite (Config_unfold j path format true _ c E).
  unfold faulting, answering, bind, Exec, Commit, commitReply. simpl.
  unfold bind, Exec. simpl. rewrite Hp. reflexivity.
Qed.

(** X6: after any reply to its load request, faulty or not,
    [RollbackConfig] executes the commit.  The load names the rollback
    number, or the rescue configuration for the string "rescue"; any
    other string goes into the rollback attribute as the text of a
    failed integer formatting. *)
Theorem RollbackConfig_requests (j : Junos.t) (w : World) (r : netconf.RPCReply) :
  (forall n,
      payloads (answering w (Ok r)) (snd (RollbackConfig j (AInt n) (answering w (Ok r))))
      = ["<load-configuration rollback=" ++ dq ++ fmt.itoa n ++ dq ++ "/>";
         "<commit-configuration/>"])
  /\ payloads (answering w (Ok r))
       (snd (RollbackConfig j (AString "rescue") (answering w (Ok r))))
     = ["<load-configuration rescue=" ++ dq ++ "rescue" ++ dq ++ "/>";
        "<commit-configuration/>"]
  /\ (forall s,
         s <> "rescue" ->
         payloads (answering w (Ok r))
           (snd (RollbackConfig j (AString s) (answering w (Ok r))))
         = ["<load-configuration rollback=" ++ dq ++ "%!d(string=" ++ s ++ ")" ++ dq ++ "/>";
            "<commit-configuration/>"]).
Proof.
  assert (G : forall option c,
             (let command := fmt.Sprintf rpcRollbackConfig [option] in
              match option with
              | AString s =>
                  if String.eqb s "rescue" then fmt.Sprintf rpcRescueConfig [] else command
              | _ => command
              end) = c ->
             payloads (answering w (Ok r))
               (snd (RollbackConfig j option (answering w (Ok r))))
             = [c; rpcCommit]).
  { intros option c E. unfold RollbackConfig. cbv zeta in E. rewrite E.
    unfold bind at 1.
    destruct (Exec (Junos.Session j) (netconf.RawRPC c) (answering w (Ok r)))
      as [o w1] eqn:X.
    pose proof X as X'. unfold Exec, answering in X'. simpl in X'.
    injection X' as <- Hw1. 
    pose proof (sent_Exec_Commit j c _ _ _ X) as S2.
    unfold bind. destruct (Commit j w1) as [[[e|]|n|p] w2]; simpl in S2 |- *;
      try destruct (firstFault _); exact S2. }
  repeat apply conj; intros.
  - rewrite (G (AInt n) _ eq_refl). reflexivity.
  - now rewrite (G (AString "rescue") _ eq_refl).
  - apply String.eqb_neq in H.
    rewrite (G (AString s) (fmt.Sprintf rpcRollbackConfig [AString s]))
      by (cbv zeta; now rewrite H).
    f_equal. simpl. now rewrite append_assoc.
Qed.

Lemma TrimRight_snoc (s : string) (c : ascii) (cutset : string) :
  strings.inCutset c cutset = true ->
  strings.TrimRight (s ++ String c EmptyString) cutset = strings.TrimRight s cutset.
Proof.
  intros H. induction s as [|a s IH]; simpl.
  - now rewrite H.
  - now rewrite IH.
Qed.

(** X7: [Files] sends the same request for a path and for the path with
    one more slash at its end. *)
Theorem Files_trailing_slashes (j : Junos.t) (path : string) (w : World) :
  payloads w (snd (Files j (path ++ "/") w)) = payloads w (snd (Files j path w)).
Proof.
  rewrite !sent_Files. now rewrite TrimRight_snoc.
Qed.

(** X8: with a format that is neither "xml" nor "text", [RunCommand]
    asks for text output and returns the data of the reply as it is. *)
Theorem RunCommand_other_format (j : Junos.t) (cmd format : string) (w : World)
        (data : string) (errs : option (list netconf.RPCError))
        (rest : list (result netconf.RPCReply)) :
  format <> "xml" ->
  format <> "text" ->
  pending w = Ok (reply data errs) :: rest ->
  firstFault errs = None ->
  data <> EmptyString ->
  payloads w (snd (RunCommand j cmd format w))
  = ["<command format=" ++ dq ++ "text" ++ dq ++ ">" ++ cmd ++ "</command>"]
  /\ fst (RunCommand j cmd format w) = Ret (data, None).
Proof.
  intros Hx Ht Hp Hf Hd.
  apply String.eqb_neq in Hx, Ht, Hd.
  unfold RunCommand. rewrite Hx. unfold payloads, bind, Exec. rewrite Hp. simpl.
  rewrite Hf, Hd, Ht. simpl. split; [|reflexivity].
  rewrite skipn_app, skipn_all, Nat.sub_diag. reflexivity.
Qed.

(** X9: with a syntax that is none of "set", "text" and "xml", [Config]
    executes the empty payload. *)
Theorem Config_other_syntax (j : Junos.t) (path : any) (format : string) (commit : bool)
        (w : World) :
  format <> "set" -> format <> "text" -> format <> "xml" ->
  hd_error (payloads w (snd (Config j path format commit w))) = Some EmptyString.
Proof.
  intros Hs Ht Hx. apply String.eqb_neq in Hs, Ht, Hx.
  unfold Config. rewrite Hs, Ht, Hx. unfold bind at 1. unfold ret at 1.
  apply (Config_tail j EmptyString commit w).
Qed.

(** X10: a string that names a readable local file makes [Config] load
    the content of the file, in each syntax. *)
Theorem Config_local_file (j : Junos.t) (p data : string) (commit : bool) (w : World) :
  files w p = Ok data ->
  hd_error (payloads w (snd (Config j (AString p) "set" commit w)))
  = Some ("<load-configuration action=" ++ dq ++ "set" ++ dq ++ " format=" ++ dq ++ "text" ++ dq
          ++ "><configuration-set>" ++ data ++ "</configuration-set></load-configuration>")
  /\ hd_error (payloads w (snd (Config j (AString p) "text" commit w)))
     = Some ("<load-configuration format=" ++ dq ++ "text" ++ dq
             ++ "><configuration-text>" ++ data
             ++ "</configuration-text></load-configuration>")
  /\ hd_error (payloads w (snd (Config j (AString p) "xml" commit w)))
     = Some ("<load-configuration format=" ++ dq ++ "xml" ++ dq
             ++ "><configuration>" ++ data ++ "</configuration></load-configuration>").
Proof.
  intros Hf.
  assert (S : forall f u t,
             configCommand (AString p) f = loadCommand u t t (AString p) EmptyString ->
             hd_error (payloads w (snd (Config j (AString p) f commit w)))
             = Some (fmt.Sprintf t [AString data])).
  { intros f u t E. unfold Config. fold (configCommand (AString p) f). rewrite E.
    unfold bind at 1. rewrite loadCommand_string. unfold loadedText. rewrite Hf.
    apply Config_tail. }
  repeat apply conj.
  - now rewrite (S "set" rpcConfigURLSet rpcConfigStringSet).
  - now rewrite (S "text" rpcConfigURLText rpcConfigStringText).
  - now rewrite (S "xml" rpcConfigURLXML rpcConfigStringXML).
Qed.

(** X11: a string that names no readable local file is loaded by
    [Config] as configuration text itself, in each syntax. *)
Theorem Config_literal_fallback (j : Junos.t) (p msg : string) (commit : bool) (w : World) :
  files w p = Err msg ->
  hd_error (payloads w (snd (Config j (AString p) "set" commit w)))
  = Some ("<load-configuration action=" ++ dq ++ "set" ++ dq ++ " format=" ++ dq ++ "text" ++ dq
          ++ "><configuration-set>" ++ p ++ "</configuration-set></load-configuration>")
  /\ hd_error (payloads w (snd (Config j (AString p) "text" commit w)))
     = Some ("<load-configuration format=" ++ dq ++ "text" ++ dq
             ++ "><configuration-text>" ++ p
             ++ "</configuration-text></load-configuration>")
  /\ hd_error (payloads w (snd (Config j (AString p) "xml" commit w)))
     = Some ("<load-configuration format=" ++ dq ++ "xml" ++ dq
             ++ "><configuration>" ++ p ++ "</configuration></load-configuration>").
Proof.
  intros Hf.
  assert (S : forall f u t,
             configCommand (AString p) f = loadCommand u t t (AString p) EmptyString ->
             hd_error (payloads w (snd (Config j (AString p) f commit w)))
             = Some (fmt.Sprintf t [AString p])).
  { intros f u t E. unfold Config. fold (configCommand (AString p) f). rewrite E.
    unfold bind at 1. rewrite loadCommand_string. unfold loadedText. rewrite Hf.
    apply Config_tail. }
  repeat apply conj.
  - now rewrite (S "set" rpcConfigURLSet rpcConfigStringSet).
  - now rewrite (S "text" rpcConfigURLText rpcConfigStringText).
  - now rewrite (S "xml" rpcConfigURLXML rpcConfigStringXML).
Qed.

(** X12: for the syntaxes "text" and "xml" too, [Config] joins a list of
    lines with one newline between two lines, inside the element of
    the syntax. *)
Theorem Config_lines_text_xml (j : Junos.t) (lines : list string) (commit : bool)
        (w : World) :
  hd_error (payloads w (snd (Config j (AStrings lines) "text" commit w)))
  = Some ("<load-configuration format=" ++ dq ++ "text" ++ dq
          ++ "><configuration-text>" ++ joinLines lines
          ++ "</configuration-text></load-configuration>")
  /\ hd_error (payloads w (snd (Config j (AStrings lines) "xml" commit w)))
     = Some ("<load-configuration format=" ++ dq ++ "xml" ++ dq
             ++ "><configuration>" ++ joinLines lines
             ++ "</configuration></load-configuration>").
Proof.
  rewrite <- Join_joinLines. split.
  - unfold Config. unfold bind at 1.
    cbn [String.eqb Ascii.eqb Bool.eqb loadCommand ret].
    apply (Config_tail j _ commit w).
  - unfold Config. unfold bind at 1.
    cbn [String.eqb Ascii.eqb Bool.eqb loadCommand ret].
    apply (Config_tail j _ commit w).
Qed.

End GatewayMore.

(* ================================================================== *)
(** * The commit errors *)
(* ================================================================== *)

Lemma TrimLeft_allIn (cutset l s : string) :
  allIn cutset l = true -> strings.TrimLeft (l ++ s) cutset = strings.TrimLeft s cutset.
Proof.
  induction l as [|c l IH]; intros H; [reflexivity|].
  simpl in H. apply andb_true_iff in H. destruct H as [Hc Hl].
  simpl. rewrite Hc. now apply IH.
Qed.

Lemma TrimLeft_firstOut (cutset s : string) :
  firstOut cutset s = true -> strings.TrimLeft s cutset = s.
Proof.
  destruct s as [|c s]; [reflexivity|]. simpl. intros H.
  apply negb_true_iff in H. now rewrite H.
Qed.

Lemma TrimRight_allIn (cutset s r : string) :
  allIn cutset r = true -> strings.TrimRight (s ++ r) cutset = strings.TrimRight s cutset.
Proof.
  intros H. induction s as [|c s IH].
  - simpl. induction r as [|a r IHr]; [reflexivity|].
    simpl in H. apply andb_true_iff in H. destruct H as [Ha Hr].
    simpl. rewrite (IHr Hr). now rewrite Ha.
  - simpl. now rewrite IH.
Qed.

Lemma TrimRight_lastOut (cutset s : string) :
  lastOut cutset s = true -> strings.TrimRight s cutset = s.
Proof.
  induction s as [|c s IH]; [reflexivity|]. intros H.
  destruct s as [|d s].
  - simpl in *. apply negb_true_iff in H. now rewrite H.
  - change (lastOut cutset (String d s) = true) in H.
    cbn [strings.TrimRight]. cbn [strings.TrimRight] in IH. rewrite (IH H). reflexivity.
Qed.

Lemma TrimLeft_all (cutset r : string) :
  allIn cutset r = true -> strings.TrimLeft r cutset = EmptyString.
Proof.
  induction r as [|a r IH]; intros H; [reflexivity|].
  simpl in H. apply andb_true_iff in H. destruct H as [Ha Hr].
  simpl. rewrite Ha. now apply IH.
Qed.

(** Trimming a wrapped field gives its core. *)
Lemma Trim_wraps (cutset core field : string) :
  wraps cutset core field -> strings.Trim field cutset = core.
Proof.
  intros (l & r & -> & Hl & Hr & Hf & Hla). unfold strings.Trim.
  rewrite TrimLeft_allIn by exact Hl.
  destruct core as [|c core].
  - simpl. now rewrite TrimLeft_all.
  - rewrite TrimLeft_firstOut by exact Hf.
    rewrite TrimRight_allIn by exact Hr. now apply TrimRight_lastOut.
Qed.

Lemma append_empty (s : string) : s ++ EmptyString = s.
Proof. induction s as [|c s IH]; simpl; [reflexivity | now rewrite IH]. Qed.

Section CommitMore.
Context {decoder : xml.Unmarshal}.

(** X13: when the reply to a commit decodes to commit errors, each of
    the four commit functions returns the first as its error: the path
    in brackets, the element and the message on lines of their own,
    each field without the brackets and line ends around it. *)
Theorem commit_error_text (j : Junos.t) (w : World) (data : string)
        (errs : option (list netconf.RPCError)) (rest : list (result netconf.RPCReply))
        (m : commitError.t) (ms : list commitError.t) (path element message : string) :
  pending w = Ok (reply data errs) :: rest ->
  firstFault errs = None ->
  xml.commitResults data = Ok {| commitResults.Errors := Some (m :: ms) |} ->
  wraps commitCutset path (commitError.Path m) ->
  wraps commitCutset element (commitError.Element m) ->
  wraps commitCutset message (commitError.Message m) ->
  let text := "[" ++ path ++ "]" ++ nl ++ "    " ++ element ++ nl ++ "Error: " ++ message in
  fst (Commit j w) = Ret (Some text)
  /\ (forall time, fst (CommitAt j time w) = Ret (Some text))
  /\ fst (CommitCheck j w) = Ret (Some text)
  /\ (forall delay, fst (CommitConfirm j delay w) = Ret (Some text)).
Proof.
  intros Hp Hf Hx Wp We Wm text.
  assert (G : forall c, fst ((r <- Exec (Junos.Session j) c ;; commitReply r) w)
                        = Ret (Some text)).
  { intros c. unfold bind, Exec. rewrite Hp. simpl. rewrite Hf, Hx. simpl.
    unfold commitMessage. fold commitCutset.
    rewrite (Trim_wraps _ _ _ Wp), (Trim_wraps _ _ _ We), (Trim_wraps _ _ _ Wm).
    unfold text. simpl. now rewrite append_empty. }
  repeat apply conj; intros; apply G.
Qed.

(** X14: a reply to a commit that has no fault and decodes to no commit
    error makes each of the four commit functions return nil. *)
Theorem commit_without_errors (j : Junos.t) (w : World) (data : string)
        (errs : option (list netconf.RPCError)) (rest : list (result netconf.RPCReply))
        (results : commitResults.t) :
  pending w = Ok (reply data errs) :: rest ->
  firstFault errs = None ->
  xml.commitResults data = Ok results ->
  commitResults.Errors results = None \/ commitResults.Errors results = Some [] ->
  fst (Commit j w) = Ret None
  /\ (forall time, fst (CommitAt j time w) = Ret None)
  /\ fst (CommitCheck j w) = Ret None
  /\ (forall delay, fst (CommitConfirm j delay w) = Ret None).
Proof.
  intros Hp Hf Hx He.
  assert (G : forall c, fst ((r <- Exec (Junos.Session j) c ;; commitReply r) w) = Ret None).
  { intros c. unfold bind, Exec. rewrite Hp. simpl. rewrite Hf, Hx.
    destruct He as [-> | ->]; reflexivity. }
  repeat apply conj; intros; apply G.
Qed.

(** X15: a reply to a commit that does not decode makes each of the four
    commit functions return the decoding error. *)
Theorem commit_undecodable (j : Junos.t) (w : World) (data : string)
        (errs : option (list netconf.RPCError)) (rest : list (result netconf.RPCReply))
        (msg : string) :
  pending w = Ok (reply data errs) :: rest ->
  firstFault errs = None ->
  xml.commitResults data = Err msg ->
  fst (Commit j w) = Ret (Some msg)
  /\ (forall time, fst (CommitAt j time w) = Ret (Some msg))
  /\ fst (CommitCheck j w) = Ret (Some msg)
  /\ (forall delay, fst (CommitConfirm j delay w) = Ret (Some msg)).
Proof.
  intros Hp Hf Hx.
  assert (G : forall c, fst ((r <- Exec (Junos.Session j) c ;; commitReply r) w)
                        = Ret (Some msg)).
  { intros c. unfold bind, Exec. rewrite Hp. simpl. now rewrite Hf, Hx. }
  repeat apply conj; intros; apply G.
Qed.

End CommitMore.

(* ================================================================== *)
(** * More properties of the resolver *)
(* ================================================================== *)

(** No opening bracket: [rex] has no match. *)
Lemma open_fails_without (s : string) (pos : nat) (c : regexp.caps) :
  lacks "[" s = true ->
  regexp.star regexp.AnyCharNotNL
    (fun p s' => regexp.run (regexp.One (regexp.Byte "[") :: rexGroup) p s' c) pos s
  = None.
Proof.
  revert pos. induction s as [|a s IH]; intros pos H; [reflexivity|].
  apply lacks_cons in H. destruct H as [Ha Hs].
  rewrite star_cons, (IH (S pos) Hs).
  cbn [regexp.run]. rewrite accepts_byte_neq by exact Ha.
  now destruct (regexp.accepts regexp.AnyCharNotNL a).
Qed.

Lemma search_rex_later (s : string) (pos : nat) : regexp.search rex (S pos) s = None.
Proof.
  revert pos. induction s as [|a s IH]; intros pos; [reflexivity|].
  cbn [regexp.search]. change (regexp.run rex (S pos) (String a s) [(0, S pos)%nat]) with (@None regexp.caps).
  apply IH.
Qed.

Lemma rex_no_match (s : string) :
  lacks "[" s = true -> regexp.FindStringSubmatch rex s = [].
Proof.
  intros H. unfold regexp.FindStringSubmatch.
  assert (R : regexp.run rex 0 s [(0, 0)%nat] = None)
    by (rewrite run_rex; now apply open_fails_without).
  destruct s as [|a s]; cbn [regexp.search]; rewrite R; [reflexivity|].
  now rewrite search_rex_later.
Qed.

Section ResolverMore.
Context {decoder : xml.Unmarshal}.

(** The facts of an engine are computed without touching the world. *)
Lemma engineFacts_world (re : versionRouteEngine.t) (w : World) :
  snd (engineFacts re w) = w.
Proof.
  unfold engineFacts, bind, index.
  destruct (nth_error (versionRouteEngine.PackageInfo re) 0) as [info|]; [|reflexivity].
  destruct (nth_error (versionPackageInfo.SoftwareVersion info) 0) as [comment|];
    [|reflexivity].
  destruct (nth_error (regexp.FindStringSubmatch rex comment) 1); reflexivity.
Qed.

Lemma engines_loop_world (REs : list versionRouteEngine.t) (idx : list nat)
      (res0 : list RoutingEngine.t) (w : World) :
  snd (foldM (fun res i =>
                re <- index REs i ;;
                e <- engineFacts re ;;
                ret (res ++ [e])%list)
             idx res0 w) = w.
Proof.
  revert res0. induction idx as [|i idx IH]; intros res0; [reflexivity|].
  cbn [foldM]. unfold bind at 1 2. unfold index at 1.
  destruct (nth_error REs i) as [re|]; [|reflexivity].
  unfold bind at 1. pose proof (engineFacts_world re w) as E.
  destruct (engineFacts re w) as [[e|n|p] w1]; simpl in E; subst w1; try reflexivity.
  unfold ret at 1. apply IH.
Qed.

(** X16: once the dial has succeeded, [NewSession] executes the
    software-information request and no other, however the call
    ends. *)
Theorem NewSession_one_request (host user password : string) (w : World) :
  dial w host user password = None ->
  payloads w (snd (NewSession host user password w)) = ["<get-software-information/>"].
Proof.
  intros Hd. unfold NewSession. unfold bind at 1 2. unfold DialSSH. rewrite Hd.
  unfold ret at 1. unfold bind at 1.
  pose proof (sent_Exec (netconf.SSH host) (netconf.RawRPC rpcVersion) w) as E.
  destruct (Exec _ _ w) as [[[rp|e]|n|p] w1]; simpl in E;
    try (apply payloads_app; exact E).
  destruct (firstFault _); [apply payloads_app; exact E|].
  destruct (strings.Contains _ _).
  - destruct (xml.versionRouteEngines _) as [facts|e]; [|apply payloads_app; exact E].
    unfold bind at 1. unfold index at 1.
    destruct (nth_error (versionRouteEngines.RE facts) 0) as [re0|];
      [|apply payloads_app; exact E].
    unfold bind at 1.
    match goal with
    | |- context [foldM ?b ?i ?r w1] =>
        pose proof (engines_loop_world (versionRouteEngines.RE facts) i r w1) as L;
        destruct (foldM b i r w1) as [[res|n|p] w2]
    end; simpl in L; subst w2; apply payloads_app; exact E.
  - destruct (xml.versionRouteEngine _) as [facts|e]; [|apply payloads_app; exact E].
    unfold bind at 1. pose proof (engineFacts_world facts w1) as F.
    destruct (engineFacts facts w1) as [[x|n|p] w2]; simpl in F; subst w2;
      apply payloads_app; exact E.
Qed.

(** X17: after a successful dial, [NewSession] returns no session and
    the error, when the request fails, when the reply carries a fault
    (the first one), and when the reply does not decode. *)
Theorem NewSession_returned_errors (host user password : string) (w : World) :
  dial w host user password = None ->
  (forall msg rest,
      pending w = Err msg :: rest ->
      fst (NewSession host user password w) = Ret (None, Some msg))
  /\ (forall data m ms rest,
         pending w = Ok (reply data (Some (m :: ms))) :: rest ->
         fst (NewSession host user password w) = Ret (None, Some (netconf.Message m)))
  /\ (forall data errs rest msg,
         pending w = Ok (reply data errs) :: rest ->
         firstFault errs = None ->
         strings.Contains data "multi-routing-engine-results" = true ->
         xml.versionRouteEngines data = Err msg ->
         fst (NewSession host user password w) = Ret (None, Some msg))
  /\ (forall data errs rest msg,
         pending w = Ok (reply data errs) :: rest ->
         firstFault errs = None ->
         strings.Contains data "multi-routing-engine-results" = false ->
         xml.versionRouteEngine data = Err msg ->
         fst (NewSession host user password w) = Ret (None, Some msg)).
Proof.
  intros Hd.
  repeat apply conj; intros;
    unfold NewSession; unfold bind at 1 2; unfold DialSSH; rewrite Hd;
    unfold ret at 1; unfold bind at 1; unfold Exec; rewrite H; simpl;
    try reflexivity.
  - now rewrite H0, H1, H2.
  - now rewrite H0, H1, H2.
Qed.

(** X18: when the first comment of the first package has no opening
    bracket, [NewSession] panics, with an index out of range, instead
    of returning an error. *)
Theorem NewSession_unmatched_version_panics (host user password : string) (w : World)
        (data : string) (errs : option (list netconf.RPCError))
        (rest : list (result netconf.RPCReply)) (facts : versionRouteEngine.t)
        (info : versionPackageInfo.t) (infos : list versionPackageInfo.t)
        (comment : string) (comments : list string) :
  dial w host user password = None ->
  pending w = Ok (reply data errs) :: rest ->
  firstFault errs = None ->
  strings.Contains data "multi-routing-engine-results" = false ->
  xml.versionRouteEngine data = Ok facts ->
  versionRouteEngine.PackageInfo facts = info :: infos ->
  versionPackageInfo.SoftwareVersion info = comment :: comments ->
  lacks "[" comment = true ->
  fst (NewSession host user password w) = Panic (IndexOutOfRange 1 0).
Proof.
  intros Hd Hp Hf Hc Hx Hi Hs Hl.
  unfold NewSession. unfold bind at 1 2. unfold DialSSH. rewrite Hd.
  unfold ret at 1. unfold bind at 1. unfold Exec. rewrite Hp.
  cbn [reply netconf.Errors netconf.Data]. rewrite Hf, Hc, Hx.
  unfold bind at 1. unfold engineFacts, bind, index. rewrite Hi. cbn [nth_error].
  rewrite Hs. cbn [nth_error]. rewrite rex_no_match by exact Hl. reflexivity.
Qed.

(** X19: [NewSession] panics, with an index out of range, when a
    multi-engine reply decodes to no engine, and when the engine has no
    package or the first package no comment. *)
Theorem NewSession_missing_facts_panics (host user password : string) (w : World)
        (data : string) (errs : option (list netconf.RPCError))
        (rest : list (result netconf.RPCReply)) :
  dial w host user password = None ->
  pending w = Ok (reply data errs) :: rest ->
  firstFault errs = None ->
  (strings.Contains data "multi-routing-engine-results" = true ->
   xml.versionRouteEngines data = Ok {| versionRouteEngines.RE := [] |} ->
   fst (NewSession host user password w) = Panic (IndexOutOfRange 0 0))
  /\ (forall facts,
         strings.Contains data "multi-routing-engine-results" = false ->
         xml.versionRouteEngine data = Ok facts ->
         versionRouteEngine.PackageInfo facts = [] ->
         fst (NewSession host user password w) = Panic (IndexOutOfRange 0 0))
  /\ (forall facts info infos,
         strings.Contains data "multi-routing-engine-results" = false ->
         xml.versionRouteEngine data = Ok facts ->
         versionRouteEngine.PackageInfo facts = info :: infos ->
         versionPackageInfo.SoftwareVersion info = [] ->
         fst (NewSession host user password w) = Panic (IndexOutOfRange 0 0)).
Proof.
  intros Hd Hp Hf.
  repeat apply conj; intros;
    unfold NewSession; unfold bind at 1 2; unfold DialSSH; rewrite Hd;
    unfold ret at 1; unfold bind at 1; unfold Exec; rewrite Hp;
    cbn [reply netconf.Errors netconf.Data]; rewrite Hf, H, H0.
  - reflexivity.
  - unfold bind at 1. unfold engineFacts, bind, index. now rewrite H1.
  - unfold bind at 1. unfold engineFacts, bind, index. rewrite H1. cbn [nth_error].
    now rewrite H2.
Qed.

(** X20: a session that [NewSession] returns comes with a nil error, is
    bound to the host dialled, and has the host name of the first
    engine decoded (of the engine, for a single-engine reply). *)
Theorem NewSession_hostname (host user password : string) (w : World)
        (j : Junos.t) (err : error) :
  fst (NewSession host user password w) = Ret (Some j, err) ->
  err = None
  /\ Junos.Session j = netconf.SSH host
  /\ exists data errs rest,
      pending w = Ok (reply data errs) :: rest
      /\ if strings.Contains data "multi-routing-engine-results"
         then exists facts re0 others,
             xml.versionRouteEngines data = Ok facts
             /\ versionRouteEngines.RE facts = re0 :: others
             /\ Junos.Hostname j = versionRouteEngine.Hostname re0
         else exists facts,
             xml.versionRouteEngine data = Ok facts
             /\ Junos.Hostname j = versionRouteEngine.Hostname facts.
Proof.
  unfold NewSession. unfold bind at 1 2. unfold DialSSH.
  destruct (dial w host user password) as [msg|]; [discriminate|].
  unfold ret at 1. unfold bind at 1. unfold Exec.
  destruct (pending w) as [|[[data errs]|msg] rest]; try discriminate.
  cbn [netconf.Errors netconf.Data].
  destruct (firstFault errs); [discriminate|].
  set (w1 := Build_World _ _ _ _ _).
  destruct (strings.Contains data "multi-routing-engine-results") eqn:C.
  - destruct (xml.versionRouteEngines data) as [facts|msg] eqn:X; [|discriminate].
    unfold bind at 1. unfold index at 1.
    destruct (versionRouteEngines.RE facts) as [|re0 others] eqn:R; [discriminate|].
    cbn [nth_error]. unfold bind at 1.
    destruct (foldM _ _ _ w1) as [[res|k|p] w2]; try discriminate.
    unfold ret. cbn [fst]. intros H. injection H as Hj He. subst j.
    repeat apply conj; try reflexivity; [now symmetry|].
    exists data, errs, rest. split; [reflexivity|]. rewrite C.
    exists facts, re0, others. now rewrite R.
  - destruct (xml.versionRouteEngine data) as [facts|msg] eqn:X; [|discriminate].
    unfold bind at 1.
    destruct (engineFacts facts w1) as [[e|k|p] w2]; try discriminate.
    unfold ret. cbn [fst]. intros H. injection H as Hj He. subst j.
    repeat apply conj; try reflexivity; [now symmetry|].
    exists data, errs, rest. split; [reflexivity|]. rewrite C.
    exists facts. now split.
Qed.

End ResolverMore.

(* ================================================================== *)
(** * Properties of the printed facts *)
(* ================================================================== *)

Lemma star_to_end (f : nat -> regexp.caps) (s : string) (pos : nat) :
  lacks LF s = true ->
  regexp.star regexp.AnyCharNotNL (fun p _ => Some (f p)) pos s
  = Some (f (pos + String.length s)%nat).
Proof.
  revert pos. induction s as [|a s IH]; intros pos H.
  - simpl. now rewrite Nat.add_0_r.
  - apply lacks_cons in H. destruct H as [Ha Hs].
    rewrite star_cons, accepts_any by exact Ha.
    rewrite (IH (S pos) Hs). simpl. now rewrite Nat.add_succ_r.
Qed.

Lemma run_lits_prefix (l : string) (tail : regexq.Regexp) (pos : nat) (rest : string)
      (c : regexp.caps) :
  regexq.run (lits l ++ tail)%list pos (l ++ rest) c
  = regexq.run tail (pos + String.length l) rest c.
Proof.
  revert pos. induction l as [|a l IH]; intros pos.
  - simpl. now rewrite Nat.add_0_r.
  - cbn [lits app append regexq.run regexp.accepts]. rewrite Ascii.eqb_refl.
    rewrite IH. simpl. now rewrite Nat.add_succ_r.
Qed.

Lemma run_lits_other (l : string) (tail : regexq.Regexp) (pos : nat) (s : string)
      (c : regexp.caps) :
  prefix l s = false -> regexq.run (lits l ++ tail)%list pos s c = None.
Proof.
  revert pos s. induction l as [|a l IH]; intros pos s H.
  - now rewrite prefix_empty in H.
  - destruct s as [|b s]; [reflexivity|].
    cbn [lits app regexq.run regexp.accepts]. cbn [prefix] in H.
    destruct (ascii_dec a b) as [<-|N].
    + rewrite Ascii.eqb_refl. now apply IH.
    + replace (Ascii.eqb b a) with false; [reflexivity|].
      symmetry. apply Ascii.eqb_neq. congruence.
Qed.

Lemma prefix_split (l s : string) :
  prefix l s = true -> exists rest, s = l ++ rest.
Proof.
  revert s. induction l as [|a l IH]; intros s H.
  - now exists s.
  - destruct s as [|b s]; [discriminate|]. cbn [prefix] in H.
    destruct (ascii_dec a b) as [<-|N]; [|discriminate].
    destruct (IH s H) as [rest ->]. now exists rest.
Qed.

Lemma lacks_append (a : ascii) (s t : string) :
  lacks a (s ++ t) = true -> lacks a t = true.
Proof.
  induction s as [|c s IH]; intros H; [exact H|].
  apply lacks_cons in H. now apply IH.
Qed.

Lemma search_anchored (p : regexq.Regexp) (s : string) (pos : nat) :
  regexq.search (regexq.Plain regexp.BeginText :: p) (S pos) s = None.
Proof.
  revert pos. induction s as [|a s IH]; intros pos; [reflexivity|].
  cbn [regexq.search regexq.run Nat.eqb]. apply IH.
Qed.

Lemma search_anchored_0 (p : regexq.Regexp) (s : string) :
  regexq.search (regexq.Plain regexp.BeginText :: p) 0 s
  = regexq.run p 0 s [(0, 0)%nat].
Proof.
  destruct s as [|a s]; cbn [regexq.search regexq.run Nat.eqb];
    destruct (regexq.run p 0 _ _); try reflexivity.
  apply search_anchored.
Qed.

Lemma substring_all (s : string) : substring 0 (String.length s) s = s.
Proof. induction s as [|a s IH]; simpl; [reflexivity | now rewrite IH]. Qed.

Lemma takesRest_star :
  takesRest [regexq.Plain (regexp.Save 3);
             regexq.Plain (regexp.StarGreedy regexp.AnyCharNotNL)].
Proof.
  intros pos s c H. exists pos. cbn [regexq.run].
  apply (star_to_end (fun p => ((1, p) :: (3, pos) :: c)%nat)), H.
Qed.

Lemma takesRest_quest (x : ascii) :
  takesRest [regexq.Quest (regexp.Byte x);
             regexq.Plain (regexp.Save 3);
             regexq.Plain (regexp.StarGreedy regexp.AnyCharNotNL)].
Proof.
  intros pos s c H.
  change (regexq.run [regexq.Quest (regexp.Byte x); regexq.Plain (regexp.Save 3);
                      regexq.Plain (regexp.StarGreedy regexp.AnyCharNotNL)] pos s c)
    with (match s with
          | String a s' =>
              if regexp.accepts (regexp.Byte x) a
              then match regexq.run [regexq.Plain (regexp.Save 3);
                                     regexq.Plain (regexp.StarGreedy regexp.AnyCharNotNL)]
                           (S pos) s' c with
                   | Some r => Some r
                   | None =>
                       regexq.run [regexq.Plain (regexp.Save 3);
                                   regexq.Plain (regexp.StarGreedy regexp.AnyCharNotNL)]
                         pos s c
                   end
              else regexq.run [regexq.Plain (regexp.Save 3);
                               regexq.Plain (regexp.StarGreedy regexp.AnyCharNotNL)]
                     pos s c
          | EmptyString =>
              regexq.run [regexq.Plain (regexp.Save 3);
                          regexq.Plain (regexp.StarGreedy regexp.AnyCharNotNL)] pos s c
          end).
  destruct s as [|a s'].
  - apply takesRest_star, H.
  - destruct (regexp.accepts (regexp.Byte x) a).
    + pose proof H as H'. apply lacks_cons in H'. destruct H' as [_ H'].
      destruct (takesRest_star (S pos) s' c H') as [k ->].
      exists k. simpl. now rewrite Nat.add_succ_r.
    + apply takesRest_star, H.
Qed.

(** A pattern that is a literal and then takes the rest matches a
    one-line model that begins with the literal, whole, and no other. *)
Lemma FindString_literal (l : string) (tail : regexq.Regexp) (model : string) :
  takesRest tail ->
  lacks LF model = true ->
  regexq.FindString
    (regexq.Plain regexp.BeginText :: regexq.Plain (regexp.Save 2) :: (lits l ++ tail)%list)
    model
  = if prefix l model then model else EmptyString.
Proof.
  intros T H. unfold regexq.FindString. rewrite search_anchored_0.
  cbn [regexq.run]. destruct (prefix l model) eqn:P.
  - destruct (prefix_split _ _ P) as [rest E]. rewrite E at 1.
    rewrite run_lits_prefix.
    destruct (T (0 + String.length l)%nat rest [(2, 0); (0, 0)]%nat) as [k ->];
      [rewrite E in H; now apply lacks_append in H|].
    unfold regexp.group. cbn [regexp.slot Nat.eqb Nat.mul Nat.add]. cbv iota.
    rewrite Nat.sub_0_r, <- length_append, <- E.
    apply substring_all.
  - now rewrite run_lits_other.
Qed.

Lemma FindString_fpc (model : string) :
  lacks LF model = true ->
  regexq.FindString fpcRegex model = if prefix "EX" model then model else EmptyString.
Proof. apply (FindString_literal "EX"), takesRest_star. Qed.

Lemma FindString_srx (model : string) :
  lacks LF model = true ->
  regexq.FindString srxRegex model = if prefix "SRX" model then model else EmptyString.
Proof. apply (FindString_literal "SRX"), takesRest_star. Qed.

Lemma FindString_m (model : string) :
  lacks LF model = true ->
  regexq.FindString mRegex model = if prefix "M" model then model else EmptyString.
Proof. apply (FindString_literal "M"), takesRest_quest. Qed.

Lemma eqb_FindString (l model found : string) :
  found = (if prefix l model then model else EmptyString) ->
  String.eqb model found = String.eqb model EmptyString || prefix l model.
Proof.
  intros ->. destruct (prefix l model).
  - now rewrite String.eqb_refl, orb_true_r.
  - now rewrite orb_false_r.
Qed.

(** One turn of the loop of [PrintFacts] appends the text of the
    engine. *)
Lemma printEngine_text (j : Junos.t) (str : string) (i : nat) (p : RoutingEngine.t) :
  lacks LF (RoutingEngine.Model p) = true ->
  printEngine j str i p = str ++ engineText (Junos.Hostname j) i p.
Proof.
  intros H. unfold printEngine. cbv zeta.
  rewrite (eqb_FindString "EX" _ _ (FindString_fpc _ H)).
  rewrite (eqb_FindString "SRX" _ _ (FindString_srx _ H)).
  rewrite (eqb_FindString "M" _ _ (FindString_m _ H)).
  unfold engineText, engineLabel.
  destruct (String.eqb (RoutingEngine.Model p) EmptyString || prefix "EX" (RoutingEngine.Model p))
    eqn:E1.
  - repeat (rewrite ?append_assoc; simpl). reflexivity.
  - apply orb_false_iff in E1. destruct E1 as [E0 _]. rewrite E0. cbn [orb].
    destruct (prefix "SRX" (RoutingEngine.Model p)).
    + repeat (rewrite ?append_assoc; simpl). reflexivity.
    + destruct (prefix "M" (RoutingEngine.Model p)).
      * repeat (rewrite ?append_assoc; simpl). reflexivity.
      * now rewrite append_empty.
Qed.

Lemma PrintFacts_loop (j : Junos.t) (l : list (nat * RoutingEngine.t)) (str : string) :
  Forall (fun ip => lacks LF (RoutingEngine.Model (snd ip)) = true) l ->
  fold_left (fun str ip => printEngine j str (fst ip) (snd ip)) l str
  = str ++ fold_right (fun ip rest => engineText (Junos.Hostname j) (fst ip) (snd ip) ++ rest)
             EmptyString l.
Proof.
  intros H. revert str. induction H as [|ip l Hip Hl IH]; intros str.
  - simpl. now rewrite append_empty.
  - cbn [fold_left fold_right]. rewrite (printEngine_text j str _ _ Hip).
    rewrite IH. now rewrite append_assoc.
Qed.

Lemma Forall_indexed {A} (P : A -> Prop) (l : list A) (a : nat) :
  Forall P l -> Forall (fun ip => P (snd ip)) (combine (seq a (List.length l)) l).
Proof.
  intros H. revert a. induction H as [|x l Hx Hl IH]; intros a; [constructor|].
  cbn [List.length seq combine]. constructor; [exact Hx | apply IH].
Qed.

(** The engines of other families leave no text. *)
Lemma engineText_none (hostname : string) (l : list (nat * RoutingEngine.t)) :
  Forall (fun ip => engineLabel (RoutingEngine.Model (snd ip)) = None) l ->
  fold_right (fun ip rest => engineText hostname (fst ip) (snd ip) ++ rest) EmptyString l
  = EmptyString.
Proof.
  induction 1 as [|ip l Hip Hl IH]; [reflexivity|].
  cbn [fold_right]. unfold engineText at 1. now rewrite Hip, IH.
Qed.

Lemma PrintFacts_closed (j : Junos.t) :
  Forall (fun p => lacks LF (RoutingEngine.Model p) = true) (Junos.Platform j) ->
  PrintFacts j
  = factsHeading j
    ++ fold_right (fun ip rest => engineText (Junos.Hostname j) (fst ip) (snd ip) ++ rest)
         EmptyString (indexed (Junos.Platform j)).
Proof.
  intros H. unfold PrintFacts. cbv zeta.
  rewrite (PrintFacts_loop j (indexed (Junos.Platform j)))
    by (apply (Forall_indexed (fun p => lacks LF (RoutingEngine.Model p) = true)), H).
  reflexivity.
Qed.

(** X21: [PrintFacts] prints the heading with the number of routing
    engines and then, in order, a block for each engine whose model is
    empty or begins with "EX" (fpc), with "SRX" (node) or with "M"
    (re), numbered by the index of the engine. *)
Theorem PrintFacts_text (j : Junos.t) :
  Forall (fun p => lacks LF (RoutingEngine.Model p) = true) (Junos.Platform j) ->
  PrintFacts j
  = "Routing Engines/FPC's: " ++ fmt.itoa (Junos.RoutingEngines j) ++ nl ++ nl
    ++ fold_right (fun ip rest => engineText (Junos.Hostname j) (fst ip) (snd ip) ++ rest)
         EmptyString (indexed (Junos.Platform j)).
Proof.
  intros H. rewrite (PrintFacts_closed j H). unfold factsHeading.
  now rewrite !append_assoc.
Qed.

(** X22: when no engine has a model that is empty or begins with "EX",
    "SRX" or "M", [PrintFacts] prints the heading alone. *)
Theorem PrintFacts_other_families (j : Junos.t) :
  Forall (fun p => lacks LF (RoutingEngine.Model p) = true
                   /\ RoutingEngine.Model p <> EmptyString
                   /\ prefix "EX" (RoutingEngine.Model p) = false
                   /\ prefix "SRX" (RoutingEngine.Model p) = false
                   /\ prefix "M" (RoutingEngine.Model p) = false)
         (Junos.Platform j) ->
  PrintFacts j = "Routing Engines/FPC's: " ++ fmt.itoa (Junos.RoutingEngines j) ++ nl ++ nl.
Proof.
  intros H. rewrite PrintFacts_closed.
  - rewrite engineText_none.
    + rewrite append_empty. unfold factsHeading. reflexivity.
    + apply (Forall_indexed (fun p => engineLabel (RoutingEngine.Model p) = None)).
      eapply Forall_impl; [|exact H]. intros p (_ & Hn & He & Hs & Hm).
      unfold engineLabel. apply String.eqb_neq in Hn. now rewrite Hn, He, Hs, Hm.
  - eapply Forall_impl; [|exact H]. now intros p [Hl _].
Qed.

(* ================================================================== *)
(** * More theorems at work on the fixture device *)
(* ================================================================== *)

Lemma Config_commits_before_fault_fixture :
  (exists c,
      payloads (faulting (fixtureWorld [Ok (reply "<commit-results/>" None)]) EmptyString
                  {| netconf.Message := "syntax error" |} [])
        (snd (@Config fixtureDecoder fixtureSession (AStrings ["delete system"]) "set" true
                (faulting (fixtureWorld [Ok (reply "<commit-results/>" None)]) EmptyString
                   {| netconf.Message := "syntax error" |} [])))
      = [c; "<commit-configuration/>"])
  /\ fst (@Config fixtureDecoder fixtureSession (AStrings ["delete system"]) "set" true
            (faulting (fixtureWorld [Ok (reply "<commit-results/>" None)]) EmptyString
               {| netconf.Message := "syntax error" |} []))
     = Ret (Some "syntax error").
Proof.
  apply (@Config_commits_before_fault fixtureDecoder fixtureSession
           (AStrings ["delete system"]) "set"
           (fixtureWorld [Ok (reply "<commit-results/>" None)]) EmptyString
           {| netconf.Message := "syntax error" |} [] "<commit-results/>" None []);
    reflexivity.
Defined.

Lemma Config_commit_failure_hides_fault_fixture :
  fst (@Config fixtureDecoder fixtureSession (AStrings ["delete system"]) "set" true
         (faulting (fixtureWorld [Err "broken pipe"]) EmptyString
            {| netconf.Message := "syntax error" |} []))
  = Ret (Some "broken pipe").
Proof.
  apply (@Config_commit_failure_hides_fault fixtureDecoder fixtureSession
           (AStrings ["delete system"]) "set" (fixtureWorld [Err "broken pipe"]) EmptyString
           {| netconf.Message := "syntax error" |} [] "broken pipe" []).
  reflexivity.
Defined.

Lemma RunCommand_other_format_fixture :
  payloads (fixtureWorld [Ok (reply "<output>up</output>" None)])
    (snd (@RunCommand fixtureDecoder fixtureSession "show system uptime" "json"
            (fixtureWorld [Ok (reply "<output>up</output>" None)])))
  = ["<command format=" ++ dq ++ "text" ++ dq ++ ">" ++ "show system uptime" ++ "</command>"]
  /\ fst (@RunCommand fixtureDecoder fixtureSession "show system uptime" "json"
            (fixtureWorld [Ok (reply "<output>up</output>" None)]))
     = Ret ("<output>up</output>", None).
Proof.
  apply (@RunCommand_other_format fixtureDecoder fixtureSession "show system uptime" "json"
           (fixtureWorld [Ok (reply "<output>up</output>" None)])
           "<output>up</output>" None []);
    try reflexivity; discriminate.
Defined.

Lemma Config_other_syntax_fixture :
  hd_error (payloads (fixtureWorld [])
              (snd (@Config fixtureDecoder fixtureSession (AStrings ["delete system"]) "json"
                      false (fixtureWorld []))))
  = Some EmptyString.
Proof.
  apply (@Config_other_syntax fixtureDecoder fixtureSession (AStrings ["delete system"])
           "json" false (fixtureWorld []));
    discriminate.
Defined.

Lemma Config_local_file_fixture :
  hd_error (payloads (fileWorld [])
              (snd (@Config fixtureDecoder fixtureSession (AString "junos.conf") "set" false
                      (fileWorld []))))
  = Some ("<load-configuration action=" ++ dq ++ "set" ++ dq ++ " format=" ++ dq ++ "text" ++ dq
          ++ "><configuration-set>" ++ "set system host-name R1"
          ++ "</configuration-set></load-configuration>").
Proof.
  apply (@Config_local_file fixtureDecoder fixtureSession "junos.conf"
           "set system host-name R1" false (fileWorld [])).
  reflexivity.
Defined.

Lemma Config_literal_fallback_fixture :
  hd_error (payloads (fixtureWorld [])
              (snd (@Config fixtureDecoder fixtureSession (AString "junos.conf") "set" false
                      (fixtureWorld []))))
  = Some ("<load-configuration action=" ++ dq ++ "set" ++ dq ++ " format=" ++ dq ++ "text" ++ dq
          ++ "><configuration-set>" ++ "junos.conf"
          ++ "</configuration-set></load-configuration>").
Proof.
  apply (@Config_literal_fallback fixtureDecoder fixtureSession "junos.conf"
           "no such file or directory" false (fixtureWorld [])).
  reflexivity.
Defined.

(** The commit error of the example: a path in brackets, a message
    between line ends. *)
Lemma commit_error_text_fixture :
  fst (@Commit
         (constDecoder
            (Ok {| commitResults.Errors :=
                     Some [{| commitError.Path := "[edit interfaces]";
                              commitError.Element := nl ++ "ge-0/0/0" ++ nl;
                              commitError.Message := nl ++ "syntax error" ++ nl |}] |})
            (Err "EOF") (Err "EOF"))
         fixtureSession (fixtureWorld [Ok (reply "<commit-results/>" None)]))
  = Ret (Some ("[edit interfaces]" ++ nl ++ "    ge-0/0/0" ++ nl ++ "Error: syntax error")).
Proof.
  apply (@commit_error_text
           (constDecoder
              (Ok {| commitResults.Errors :=
                       Some [{| commitError.Path := "[edit interfaces]";
                                commitError.Element := nl ++ "ge-0/0/0" ++ nl;
                                commitError.Message := nl ++ "syntax error" ++ nl |}] |})
              (Err "EOF") (Err "EOF"))
           fixtureSession (fixtureWorld [Ok (reply "<commit-results/>" None)])
           "<commit-results/>" None []
           {| commitError.Path := "[edit interfaces]";
              commitError.Element := nl ++ "ge-0/0/0" ++ nl;
              commitError.Message := nl ++ "syntax error" ++ nl |} []
           "edit interfaces" "ge-0/0/0" "syntax error");
    try reflexivity.
  - exists "[", "]". repeat apply conj; reflexivity.
  - exists nl, nl. repeat apply conj; reflexivity.
  - exists nl, nl. repeat apply conj; reflexivity.
Defined.

Lemma commit_without_errors_fixture :
  fst (@CommitCheck fixtureDecoder fixtureSession
         (fixtureWorld [Ok (reply "<commit-results/>" None)]))
  = Ret None.
Proof.
  apply (@commit_without_errors fixtureDecoder fixtureSession
           (fixtureWorld [Ok (reply "<commit-results/>" None)])
           "<commit-results/>" None [] {| commitResults.Errors := None |});
    try reflexivity.
  left. reflexivity.
Defined.

Lemma commit_undecodable_fixture :
  fst (@Commit (constDecoder (Err "EOF") (Err "EOF") (Err "EOF")) fixtureSession
         (fixtureWorld [Ok (reply EmptyString None)]))
  = Ret (Some "EOF").
Proof.
  apply (@commit_undecodable (constDecoder (Err "EOF") (Err "EOF") (Err "EOF"))
           fixtureSession (fixtureWorld [Ok (reply EmptyString None)])
           EmptyString None [] "EOF");
    reflexivity.
Defined.

Lemma NewSession_one_request_fixture :
  payloads (fixtureWorld [])
    (snd (@NewSession fixtureDecoder "r1" "admin" "secret" (fixtureWorld [])))
  = ["<get-software-information/>"].
Proof.
  apply (@NewSession_one_request fixtureDecoder "r1" "admin" "secret" (fixtureWorld [])).
  reflexivity.
Defined.

Lemma NewSession_returned_errors_fixture :
  fst (@NewSession fixtureDecoder "r1" "admin" "secret" (fixtureWorld [Err "broken pipe"]))
  = Ret (None, Some "broken pipe").
Proof.
  apply (proj1 (@NewSession_returned_errors fixtureDecoder "r1" "admin" "secret"
                  (fixtureWorld [Err "broken pipe"]) eq_refl)
           "broken pipe" []).
  reflexivity.
Defined.

Lemma NewSession_unmatched_version_panics_fixture :
  fst (@NewSession
         (constDecoder (Err "EOF") (Err "EOF")
            (Ok (fixtureEngine "r1" "mx960" "JUNOS Base OS boot 20.4R3.8")))
         "r1" "admin" "secret" (fixtureWorld [Ok (reply "<software-information/>" None)]))
  = Panic (IndexOutOfRange 1 0).
Proof.
  apply (@NewSession_unmatched_version_panics
           (constDecoder (Err "EOF") (Err "EOF")
              (Ok (fixtureEngine "r1" "mx960" "JUNOS Base OS boot 20.4R3.8")))
           "r1" "admin" "secret" (fixtureWorld [Ok (reply "<software-information/>" None)])
           "<software-information/>" None []
           (fixtureEngine "r1" "mx960" "JUNOS Base OS boot 20.4R3.8")
           {| versionPackageInfo.PackageName := ["junos"];
              versionPackageInfo.SoftwareVersion := ["JUNOS Base OS boot 20.4R3.8"] |}
           [] "JUNOS Base OS boot 20.4R3.8" []);
    reflexivity.
Defined.

Lemma NewSession_missing_facts_panics_fixture :
  fst (@NewSession
         (constDecoder (Err "EOF") (Ok {| versionRouteEngines.RE := [] |}) (Err "EOF"))
         "r1" "admin" "secret"
         (fixtureWorld [Ok (reply "<multi-routing-engine-results/>" None)]))
  = Panic (IndexOutOfRange 0 0).
Proof.
  apply (proj1 (@NewSession_missing_facts_panics
                  (constDecoder (Err "EOF") (Ok {| versionRouteEngines.RE := [] |})
                     (Err "EOF"))
                  "r1" "admin" "secret"
                  (fixtureWorld [Ok (reply "<multi-routing-engine-results/>" None)])
                  "<multi-routing-engine-results/>" None [] eq_refl eq_refl eq_refl));
    reflexivity.
Defined.

Lemma NewSession_hostname_fixture :
  @None string = None
  /\ Junos.Session fixtureStack = netconf.SSH "sw1"
  /\ exists data errs rest,
      pending (fixtureWorld [Ok (reply "<multi-routing-engine-results/>" None)])
      = Ok (reply data errs) :: rest
      /\ if strings.Contains data "multi-routing-engine-results"
         then exists facts re0 others,
             @xml.versionRouteEngines fixtureDecoder data = Ok facts
             /\ versionRouteEngines.RE facts = re0 :: others
             /\ Junos.Hostname fixtureStack = versionRouteEngine.Hostname re0
         else exists facts,
             @xml.versionRouteEngine fixtureDecoder data = Ok facts
             /\ Junos.Hostname fixtureStack = versionRouteEngine.Hostname facts.
Proof.
  apply (@NewSession_hostname fixtureDecoder "sw1" "admin" "secret"
           (fixtureWorld [Ok (reply "<multi-routing-engine-results/>" None)])
           fixtureStack None).
  reflexivity.
Defined.

Lemma PrintFacts_text_fixture :
  PrintFacts fixtureStack
  = "Routing Engines/FPC's: " ++ fmt.itoa 2 ++ nl ++ nl
    ++ fold_right (fun ip rest => engineText "sw1" (fst ip) (snd ip) ++ rest)
         EmptyString (indexed (Junos.Platform fixtureStack)).
Proof.
  apply (PrintFacts_text fixtureStack). repeat constructor.
Defined.

Lemma PrintFacts_other_families_fixture :
  PrintFacts {| Junos.Session := netconf.SSH "leaf1";
                Junos.Hostname := "leaf1";
                Junos.RoutingEngines := 1;
                Junos.Platform := [{| RoutingEngine.Model := "QFX5100-48S";
                                      RoutingEngine.Version := "18.4R2.7" |}] |}
  = "Routing Engines/FPC's: " ++ fmt.itoa 1 ++ nl ++ nl.
Proof.
  apply (PrintFacts_other_families
           {| Junos.Session := netconf.SSH "leaf1";
              Junos.Hostname := "leaf1";
              Junos.RoutingEngines := 1;
              Junos.Platform := [{| RoutingEngine.Model := "QFX5100-48S";
                                    RoutingEngine.Version := "18.4R2.7" |}] |}).
  repeat constructor. discriminate.
Defined.
